(** * perryMillNews: the feed normalisation pipeline of [rss.py]

    A shallow embedding of [web-scraper-python/rss.py].  The module works on
    the loosely typed mappings that the feed parser hands over, so the
    embedding keeps a small universe of Python values, Python's truthiness
    and an error monad for the exceptions the code can let escape.  The
    libraries the module calls (the HTML parser, the URL parser, the feed
    parser) are interfaces; the functions of [rss.py] are written once over
    them.  Of [app.py] the embedding has the two functions that work on
    the result of the pipeline: [_serialize_feed], which builds the
    payload of a feed, and [_build_prompt], which reads one back. *)

From Stdlib Require Import ZArith Ascii Lia DecimalString SpecFloat.
From stdpp Require Import gmap strings list.

#[local] Set Warnings "-register-all".
Local Open Scope Z_scope.

(** ** Python strings

    A [str] is a sequence of code points.  Lengths, slices and
    [str.strip] count code points, so a character outside ASCII is one
    element of the list. *)

Definition pystr : Type := list N.

Fixpoint py (s : string) : pystr :=
  match s with
  | EmptyString => []
  | String c r => N_of_ascii c :: py r
  end.

(** [str.isspace] for one character, which is also the class [\s] of a
    [str] pattern of [re]. *)
Definition py_isspace (c : N) : bool :=
  ((9 <=? c) && (c <=? 13) || (28 <=? c) && (c <=? 32)
   || (c =? 133) || (c =? 160) || (c =? 5760)
   || (8192 <=? c) && (c <=? 8202)
   || (c =? 8232) || (c =? 8233) || (c =? 8239) || (c =? 8287)
   || (c =? 12288))%N.

Fixpoint lstrip (s : pystr) : pystr :=
  match s with
  | [] => []
  | c :: r => if py_isspace c then lstrip r else s
  end.

Definition rstrip (s : pystr) : pystr := rev (lstrip (rev s)).

Definition strip (s : pystr) : pystr := rstrip (lstrip s).

Fixpoint startswith (s p : pystr) : bool :=
  match p, s with
  | [], _ => true
  | _ :: _, [] => false
  | a :: p', b :: s' => (a =? b)%N && startswith s' p'
  end.

(** [needle in s]: [s] holds [needle] as a contiguous piece. *)
Definition contains (s needle : pystr) : Prop :=
  exists pre post, s = pre ++ needle ++ post.

(** ** Python values *)

(** [time.struct_time], the nine-field tuple the parser stores under
    [published_parsed] and [updated_parsed]. *)
Record struct_time : Type := {
  tm_year : Z; tm_mon : Z; tm_mday : Z;
  tm_hour : Z; tm_min : Z; tm_sec : Z;
  tm_wday : Z; tm_yday : Z; tm_isdst : Z
}.

Inductive PyVal : Type :=
| VNone
| VBool (b : bool)
| VInt (z : Z)
| VStr (s : pystr)
| VList (l : list PyVal)
| VDict (d : gmap string PyVal)
| VTime (t : struct_time).

(** The mapping of one parsed entry, [feedparser.FeedParserDict]. *)
Abbreviation RawEntry := (gmap string PyVal).

(** [bool(v)]. A [time.struct_time] is a tuple of nine items. *)
Definition truthy (v : PyVal) : bool :=
  match v with
  | VNone => false
  | VBool b => b
  | VInt z => negb (z =? 0)
  | VStr s => match s with [] => false | _ => true end
  | VList l => match l with [] => false | _ => true end
  | VDict d => negb (bool_decide (d = ∅))
  | VTime _ => true
  end.

(** [a or b] *)
Definition py_or (a b : PyVal) : PyVal := if truthy a then a else b.

(** [d.get(k)] and [d.get(k, dflt)] *)
Definition get (d : gmap string PyVal) (k : string) : PyVal :=
  default VNone (d !! k).

Definition get_default (d : gmap string PyVal) (k : string) (dflt : PyVal) : PyVal :=
  default dflt (d !! k).

(** ** The mapping of an entry

    The module is handed entries of two kinds: a plain [dict], as the
    test-suite builds them, and a [feedparser.FeedParserDict], as the
    parser does.  Both store their items in a [dict]; a [FeedParserDict]
    answers some keys from other stored keys.  The mappings inside an
    entry are taken as [dict]s: the parser builds the items of
    [media_content] and [media_thumbnail] as [dict]s, and of the others
    the module asks [type], [href], [value] and [title], which a
    [FeedParserDict] answers from themselves. *)

Inductive MappingKind : Type := PlainDict | ParserDict.

Class EntryKind : Type := { entry_kind : MappingKind }.

(** [FeedParserDict.__getitem__] on the keys the module asks an entry
    for: [description] is answered from the stored [summary], else from
    the stored [subtitle], else from itself; [updated_parsed], when it is
    not stored, from the stored [published_parsed]; the other ten keys
    from themselves. *)
Definition parser_lookup (d : gmap string PyVal) (k : string) : option PyVal :=
  if decide (k = "description") then
    match d !! "summary" with
    | Some v => Some v
    | None =>
        match d !! "subtitle" with
        | Some v => Some v
        | None => d !! "description"
        end
    end
  else if decide (k = "updated_parsed") then
    match d !! "updated_parsed" with
    | Some v => Some v
    | None => d !! "published_parsed"
    end
  else d !! k.

(** [entry[k]], with [None] for [KeyError]; [k in entry] says it is there. *)
Definition entry_lookup {EK : EntryKind} (entry : RawEntry) (k : string)
  : option PyVal :=
  match entry_kind with
  | PlainDict => entry !! k
  | ParserDict => parser_lookup entry k
  end.

(** [entry.get(k)] and [entry.get(k, dflt)] *)
Definition entry_get {EK : EntryKind} (entry : RawEntry) (k : string) : PyVal :=
  default VNone (entry_lookup entry k).

Definition entry_get_default {EK : EntryKind} (entry : RawEntry) (k : string)
    (dflt : PyVal) : PyVal :=
  default dflt (entry_lookup entry k).

(** ** The limit of a fetch

    [fetch_feed] tests its [limit] for an [int] or a [float].  The fields
    of an entry that the module reads hold no [float], so the values above
    have none; the limit is a value or a [float], an IEEE double with its
    zeros, infinities and NaN. *)

Inductive Limit : Type :=
| LimitValue (v : PyVal)
| LimitFloat (f : spec_float).

Coercion LimitValue : PyVal >-> Limit.

(** ** Exceptions *)

Inductive PyExc : Type :=
| AttributeError
| TypeError
| OverflowError
| ValueError (msg : pystr).

Inductive Res (A : Type) : Type :=
| Ok (a : A)
| Raise (e : PyExc).
Arguments Ok {A} a.
Arguments Raise {A} e.

#[global] Instance Res_ret : MRet Res := fun _ a => Ok a.
#[global] Instance Res_bind : MBind Res :=
  fun _ _ f m => match m with Ok a => f a | Raise e => Raise e end.

Definition is_ok {A} (r : Res A) : bool :=
  match r with Ok _ => true | Raise _ => false end.

(** [v.strip()]: only a [str] has the method. *)
Definition strip_method (v : PyVal) : Res pystr :=
  match v with
  | VStr s => Ok (strip s)
  | _ => Raise AttributeError
  end.

(** [v.startswith(p)] *)
Definition startswith_method (v : PyVal) (p : pystr) : Res bool :=
  match v with
  | VStr s => Ok (startswith s p)
  | _ => Raise AttributeError
  end.

(** Iterating a value in a [for] statement: the items of a list, the
    characters of a [str], the keys of a dict, the fields of a tuple.
    [None], a [bool] and an [int] are not iterable. *)
Definition iter_items (v : PyVal) : Res (list PyVal) :=
  match v with
  | VList l => Ok l
  | VStr s => Ok (map (fun c => VStr [c]) s)
  | VDict d => Ok (map (fun kv => VStr (py (fst kv))) (map_to_list d))
  | VTime t =>
      Ok (map VInt [tm_year t; tm_mon t; tm_mday t; tm_hour t; tm_min t;
                    tm_sec t; tm_wday t; tm_yday t; tm_isdst t])
  | VNone | VBool _ | VInt _ => Raise TypeError
  end.

(** [l[:k]] *)
Definition slice_to {A} (l : list A) (k : Z) : list A :=
  if k <? 0 then firstn (length l - Z.to_nat (- k)) l
  else firstn (Z.to_nat k) l.

(** ** The standard library's [datetime]

    The constructor takes its components as C integers, so one that does
    not fit raises [OverflowError]; it then checks every component and
    raises [ValueError] on one out of range.  [isoformat] of a naive value
    with no microseconds prints [YYYY-MM-DDTHH:MM:SS]. *)

Record datetime : Type := {
  year : Z; month : Z; day : Z; hour : Z; minute : Z; second : Z
}.

Definition is_leap (y : Z) : bool :=
  (y mod 4 =? 0) && (negb (y mod 100 =? 0) || (y mod 400 =? 0)).

Definition days_in_month (y m : Z) : Z :=
  if (m =? 2) && is_leap y then 29
  else nth (Z.to_nat (m - 1)) [31; 28; 31; 30; 31; 30; 31; 31; 30; 31; 30; 31] 0.

Definition in_range (lo x hi : Z) : bool := (lo <=? x) && (x <=? hi).

Definition digit (d : Z) : N := Z.to_N (48 + d mod 10).

Definition pad2 (n : Z) : pystr := [digit (n / 10); digit n].
Definition pad4 (n : Z) : pystr :=
  [digit (n / 1000); digit (n / 100); digit (n / 10); digit n].

Definition fits_c_int (x : Z) : bool := (-2147483648 <=? x) && (x <=? 2147483647).

Definition datetime_new (y mo d h mi s : Z) : Res datetime :=
  if negb (forallb fits_c_int [y; mo; d; h; mi; s]) then Raise OverflowError
  else if negb (in_range 1 y 9999) then Raise (ValueError (py "year is out of range"))
  else if negb (in_range 1 mo 12) then Raise (ValueError (py "month must be in 1..12"))
  else if negb (in_range 1 d (days_in_month y mo)) then
    Raise (ValueError (py "day is out of range for month"))
  else if negb (in_range 0 h 23) then Raise (ValueError (py "hour must be in 0..23"))
  else if negb (in_range 0 mi 59) then Raise (ValueError (py "minute must be in 0..59"))
  else if negb (in_range 0 s 59) then Raise (ValueError (py "second must be in 0..59"))
  else Ok {| year := y; month := mo; day := d; hour := h; minute := mi; second := s |}.

Definition isoformat (dt : datetime) : pystr :=
  pad4 (year dt) ++ py "-" ++ pad2 (month dt) ++ py "-" ++ pad2 (day dt)
  ++ py "T" ++ pad2 (hour dt) ++ py ":" ++ pad2 (minute dt) ++ py ":"
  ++ pad2 (second dt).

(** ** [re.split(r'(?<=\.)\s+', s)]

    The pattern matches a maximal run of white space that stands right
    after a full stop.  [skip] says that the scan is inside such a run,
    [prev_dot] that the character just read is a full stop, [acc] holds the
    piece being collected, last character first. *)

Definition dot : N := 46%N.

Fixpoint re_split_go (skip prev_dot : bool) (acc s : pystr) : list pystr :=
  match s with
  | [] => [rev acc]
  | c :: r =>
      if py_isspace c then
        if skip then re_split_go true false acc r
        else if prev_dot then rev acc :: re_split_go true false [] r
        else re_split_go false false (c :: acc) r
      else re_split_go false (c =? dot)%N (c :: acc) r
  end.

Definition re_split_sentences (s : pystr) : list pystr :=
  re_split_go false false [] s.

(** ** The libraries behind the module *)

(** [bs4.BeautifulSoup(markup, 'html.parser')] on text:
    [get_text] is [soup.get_text(separator=' ', strip=True)];
    [find_img_src] is the [src] attribute of the tag [soup.find('img')]
    returns, when there is such a tag and it carries the attribute. *)
Class HtmlParser : Type := {
  get_text : pystr -> pystr;
  find_img_src : pystr -> option pystr
}.

(** [urllib.parse.urlparse(url).netloc]; the parser raises [ValueError] on
    a URL it rejects. *)
Class UrlParser : Type := {
  urlparse_netloc : pystr -> Res pystr
}.

(** What [feedparser.parse] returns: the [bozo] flag, the text of
    [bozo_exception] ([None] when the attribute is missing or is [None]),
    the feed-level mapping and the entries in document order. *)
Record Parsed : Type := {
  bozo : bool;
  bozo_exception : option pystr;
  feed : gmap string PyVal;
  entries : list RawEntry
}.

Class FeedParser : Type := {
  parse : pystr -> Parsed
}.

(** ** [rss.py] *)

Definition DEFAULT_FEED_URL : pystr :=
  py "https://rss.feedspot.com/u/72252f9f2933826fe9d1a2da83d6122c/rss/rsscombiner".

Definition MAX_ITEMS : Z := 100.

(** The three characters of the literal that [_derive_subtitle] appends
    to a cut subtitle, as the source file spells it: U+00E2, U+20AC,
    U+00A6. *)
Definition TRUNCATION_MARK : pystr := [226; 8364; 166]%N.

Record FeedEntry : Type := {
  title : pystr;
  summary : pystr;
  link : pystr;
  published : option pystr;
  source : option pystr;
  subtitle : option pystr;
  image : PyVal
}.

Record FeedResult : Type := {
  feed_title : PyVal;
  feed_link : PyVal;
  result_entries : list FeedEntry
}.

Definition nonempty (s : pystr) : bool :=
  match s with [] => false | _ => true end.

Section Rss.
Context {HP : HtmlParser} {UP : UrlParser} {EK : EntryKind}.

(** [BeautifulSoup(markup, 'html.parser')] reads text; a value of
    another kind is refused with [TypeError]. *)
Definition soup_text (markup : PyVal) : Res pystr :=
  match markup with
  | VStr s => Ok (get_text s)
  | _ => Raise TypeError
  end.

(** [tag = soup.find('img')] followed by [tag and tag.get('src')]: the
    [src] of the first image tag when it is not empty. *)
Definition soup_img (markup : PyVal) : Res (option PyVal) :=
  match markup with
  | VStr s =>
      Ok (match find_img_src s with
          | Some src => if nonempty src then Some (VStr src) else None
          | None => None
          end)
  | _ => Raise TypeError
  end.

Definition _extract_plain_text (html_fragment : PyVal) : Res pystr :=
  if negb (truthy html_fragment) then Ok []
  else soup_text html_fragment.

(** The loop over [media_content] and the one over [media_thumbnail]. *)
Fixpoint media_loop (items : list PyVal) : option PyVal :=
  match items with
  | [] => None
  | item :: rest =>
      match item with
      | VDict d =>
          let url := py_or (get d "url") (get d "href") in
          if truthy url then Some url else media_loop rest
      | _ => media_loop rest
      end
  end.

Definition media_scan (v : PyVal) : option PyVal :=
  match v with
  | VList items => media_loop items
  | _ => None
  end.

(** The loop over [links]. *)
Fixpoint links_loop (links : list PyVal) : Res (option PyVal) :=
  match links with
  | [] => Ok None
  | link :: rest =>
      match link with
      | VDict d =>
          is_image ← startswith_method (get_default d "type" (VStr [])) (py "image");
          if is_image && truthy (get d "href") then Ok (Some (get d "href"))
          else links_loop rest
      | _ => links_loop rest
      end
  end.

Definition _extract_image (entry : RawEntry) : Res PyVal :=
  match media_scan (entry_get entry "media_content") with
  | Some url => Ok url
  | None =>
  match media_scan (entry_get entry "media_thumbnail") with
  | Some url => Ok url
  | None =>
    links ← iter_items (py_or (entry_get_default entry "links" (VList [])) (VList []));
    found ← links_loop links;
    match found with
    | Some href => Ok href
    | None =>
      in_detail ←
        match entry_get entry "summary_detail" with
        | VDict summary_detail =>
            let html_value := get summary_detail "value" in
            if truthy html_value then soup_img html_value else Ok None
        | _ => Ok None
        end;
      match in_detail with
      | Some src => Ok src
      | None =>
        let summary_html :=
          py_or (entry_get entry "summary") (entry_get entry "description") in
        in_summary ← (if truthy summary_html then soup_img summary_html else Ok None);
        match in_summary with
        | Some src => Ok src
        | None => Ok VNone
        end
      end
    end
  end
  end.

(** The tail of [_derive_subtitle], from [re.split] on. *)
Definition first_sentence_cut (subtitle_candidate : pystr) : option pystr :=
  let sentences := re_split_sentences subtitle_candidate in
  let primary := match sentences with p :: _ => p | [] => subtitle_candidate end in
  let trimmed := strip primary in
  if (160 <? Z.of_nat (length trimmed)) then
    Some (rstrip (firstn 157 trimmed) ++ TRUNCATION_MARK)
  else if nonempty trimmed then Some trimmed else None.

Definition _derive_subtitle (entry : RawEntry) (summary_text : pystr)
  : Res (option pystr) :=
  let subtitle_candidate := entry_get entry "subtitle" in
  if truthy subtitle_candidate then
    text ← _extract_plain_text subtitle_candidate; Ok (Some text)
  else
    subtitle_candidate ←
      match entry_get entry "summary_detail" with
      | VDict summary_detail =>
          if truthy (get summary_detail "value") then
            detail_text ← _extract_plain_text (get summary_detail "value");
            Ok (if nonempty detail_text then VStr detail_text else subtitle_candidate)
          else Ok subtitle_candidate
      | _ => Ok subtitle_candidate
      end;
    let subtitle_candidate :=
      if negb (truthy subtitle_candidate) && nonempty summary_text
      then VStr summary_text else subtitle_candidate in
    if negb (truthy subtitle_candidate) then Ok None
    else
      match subtitle_candidate with
      | VStr s => Ok (first_sentence_cut s)
      | _ => Raise TypeError
      end.

Definition _format_datetime (struct_time : PyVal) : Res (option pystr) :=
  if negb (truthy struct_time) then Ok None
  else
    match struct_time with
    | VTime t =>
        match datetime_new (tm_year t) (tm_mon t) (tm_mday t)
                           (tm_hour t) (tm_min t) (tm_sec t) with
        | Ok dt => Ok (Some (isoformat dt))
        | Raise TypeError | Raise (ValueError _) => Ok None
        | Raise e => Raise e
        end
    | _ => Raise AttributeError
    end.

Definition _normalize_entry (entry : RawEntry) : Res FeedEntry :=
  title ← strip_method (py_or (entry_get entry "title") (VStr []));
  link ← strip_method (py_or (entry_get entry "link") (VStr []));
  summary ←
    _extract_plain_text
      (py_or (entry_get entry "summary") (entry_get entry "description"));
  let published :=
    py_or (entry_get entry "published_parsed") (entry_get entry "updated_parsed") in
  published_iso ← _format_datetime published;
  source ←
    match entry_lookup entry "source" with
    | Some (VDict src) =>
        t ← strip_method (py_or (get src "title") (VStr []));
        Ok (if nonempty t then Some t else None)
    | _ => Ok None
    end;
  source ←
    match source with
    | Some _ => Ok source
    | None =>
        if nonempty link then
          netloc ← urlparse_netloc link;
          Ok (if nonempty netloc then Some netloc else source)
        else Ok source
    end;
  image ← _extract_image entry;
  subtitle ← _derive_subtitle entry summary;
  Ok {| title := title; summary := summary; link := link;
        published := published_iso; source := source;
        subtitle := subtitle; image := image |}.

(** The list comprehension of [fetch_feed]: entries are normalised in
    order and the first exception ends the run. *)
Fixpoint normalize_all (raw : list RawEntry) : Res (list FeedEntry) :=
  match raw with
  | [] => Ok []
  | entry :: rest =>
      fe ← _normalize_entry entry;
      fes ← normalize_all rest;
      Ok (fe :: fes)
  end.

(** [isinstance(limit, (int, float))] for a value that is no [float]:
    an [int], or a [bool], which is an [int].  A [float] is taken care of
    in [limit_count] below. *)
Definition as_int (limit : PyVal) : option Z :=
  match limit with
  | VInt z => Some z
  | VBool b => Some (if b then 1 else 0)
  | _ => None
  end.

Definition effective_limit (limit : PyVal) : Z :=
  match as_int limit with
  | Some n => if n <=? 0 then MAX_ITEMS else Z.min n MAX_ITEMS
  | None => MAX_ITEMS
  end.

(** [int(f)] for a [float]: the value cut towards zero; a NaN and an
    infinity have none. *)
Definition float_to_int (f : spec_float) : Res Z :=
  match f with
  | S754_zero _ => Ok 0
  | S754_infinity _ => Raise OverflowError
  | S754_nan => Raise (ValueError (py "cannot convert float NaN to integer"))
  | S754_finite s m e =>
      let magnitude := Z.shiftl (Z.pos m) e in
      Ok (if s then - magnitude else magnitude)
  end.

(** The limit [fetch_feed] settles on.  With a [float], [limit <= 0] is
    the comparison of floats, false of a NaN, and [int(limit)] can
    raise. *)
Definition limit_count (limit : Limit) : Res Z :=
  match limit with
  | LimitValue v => Ok (effective_limit v)
  | LimitFloat f =>
      if SFleb f (S754_zero false) then Ok MAX_ITEMS
      else n ← float_to_int f; Ok (Z.min n MAX_ITEMS)
  end.

Context {FP : FeedParser}.

Definition request_url (feed_url : pystr) : pystr :=
  strip (if nonempty feed_url then feed_url else DEFAULT_FEED_URL).

Definition fetch_feed (feed_url : pystr) (limit : Limit) : Res FeedResult :=
  let url := request_url feed_url in
  let parsed := parse url in
  match (if bozo parsed then bozo_exception parsed else None) with
  | Some cause => Raise (ValueError (py "Unable to parse feed: " ++ cause))
  | None =>
      let feed_title :=
        py_or (if truthy (VDict (feed parsed)) then get (feed parsed) "title" else VStr [])
              (VStr (py "RSS Feed")) in
      let feed_link :=
        py_or (if truthy (VDict (feed parsed)) then get (feed parsed) "link" else VStr [])
              (VStr url) in
      effective_limit ← limit_count limit;
      entries ← normalize_all (slice_to (entries parsed) effective_limit);
      Ok {| feed_title := feed_title; feed_link := feed_link;
            result_entries := entries |}
  end.

End Rss.

(** ** [FeedResult.to_dict]

    [dataclasses.asdict] turns an entry into a mapping with one key for
    each field of the class; an optional field that is [None] keeps its
    key. *)

Definition optional (o : option pystr) : PyVal :=
  match o with Some s => VStr s | None => VNone end.

Definition asdict (entry : FeedEntry) : gmap string PyVal :=
  {[ "title" := VStr (title entry);
     "summary" := VStr (summary entry);
     "link" := VStr (link entry);
     "published" := optional (published entry);
     "source" := optional (source entry);
     "subtitle" := optional (subtitle entry);
     "image" := image entry ]}.

Definition to_dict (self : FeedResult) : gmap string PyVal :=
  {[ "feedTitle" := feed_title self;
     "feedLink" := feed_link self;
     "entries" := VList (map (fun entry => VDict (asdict entry)) (result_entries self)) ]}.

(** ** [app.py]: the payload of a feed and the prompt of the digest

    [_serialize_feed] builds what the route [/api/feed] answers with;
    [_build_prompt] reads such a payload back, as the client returns it to
    [/api/analyze].  The prompt is built from whatever mapping the client
    sends, so [_build_prompt] works on Python values again; its caller
    lets every exception through alike, and the embedding says no more of
    a failure than that the prompt is not built. *)

Definition _serialize_feed (feed_result : FeedResult) (category : pystr)
    (feed_meta : gmap string PyVal) : gmap string PyVal :=
  let payload := to_dict feed_result in
  let payload := <["category" := VStr category]> payload in
  let payload := <["categoryName" := get_default feed_meta "name" (VStr [])]> payload in
  <["categoryDescription" := get_default feed_meta "description" (VStr [])]> payload.

(** What a replacement field of an f-string makes of a value that is
    neither text, [None] nor a [bool]: the digits of a number, the [repr]
    of a container.  The conversion can fail (a number with too many
    digits to print). *)
Class Formatter : Type := {
  format_other : PyVal -> option pystr
}.

Definition newline : N := 10%N.

(** [sep.join(pieces)] *)
Fixpoint str_join (sep : pystr) (pieces : list pystr) : pystr :=
  match pieces with
  | [] => []
  | p :: rest =>
      match rest with
      | [] => p
      | _ :: _ => p ++ sep ++ str_join sep rest
      end
  end.

(** The text of the prompt up to the stories. *)
Definition PROMPT_HEAD : pystr :=
  py "You are an editorial AI assistant summarizing the latest news items for a digest called 'Perry Mill'. "
  ++ py "Write a concise narrative (3-5 paragraphs) highlighting the major themes, noteworthy events, and overall sentiment. "
  ++ py "Tie related stories together, and mention sources when useful. Avoid bullet lists; respond with polished prose."
  ++ [newline; newline] ++ py "Stories:" ++ [newline].

(** The f-string of one story, filled with four texts. *)
Definition story_line (title source published summary : pystr) : pystr :=
  py "Title: " ++ title ++ [newline] ++ py "Source: " ++ source ++ [newline]
  ++ py "Published: " ++ published ++ [newline] ++ py "Summary: " ++ summary
  ++ [newline].

(** [v.strip()], when nothing is raised. *)
Definition stripped (v : PyVal) : option pystr :=
  match strip_method v with Ok s => Some s | Raise _ => None end.

Section Prompt.
Context {F : Formatter}.

(** A replacement field with no format specification. *)
Definition py_format (v : PyVal) : option pystr :=
  match v with
  | VNone => Some (py "None")
  | VBool true => Some (py "True")
  | VBool false => Some (py "False")
  | VStr s => Some s
  | _ => format_other v
  end.

(** The body of the loop of [_build_prompt]: the line an entry adds.
    Only a mapping has [get]. *)
Definition story (entry : PyVal) : option pystr :=
  match entry with
  | VDict d =>
      title ← stripped (get_default d "title" (VStr []));
      summary ← stripped (get_default d "summary" (VStr []));
      let source := get_default d "source" (VStr (py "Unknown source")) in
      let published := get d "published" in
      source ← py_format source;
      published ← py_format published;
      Some (story_line title source published summary)
  | _ => None
  end.

(** [entries[:15]] is a list only for a list: the slice of a text or of
    a tuple holds items without [get], and a number or a mapping takes no
    slice. *)
Definition _build_prompt (feed : gmap string PyVal) : option pystr :=
  match py_or (get feed "entries") (VList []) with
  | VList entries =>
      lines ← mapM story (slice_to entries 15);
      Some (PROMPT_HEAD ++ str_join [newline] lines)
  | _ => None
  end.

End Prompt.

(** ** Entries as the feed parser shapes them

    [feedparser] stores text under [title], [link], [summary],
    [description] and [subtitle], a [struct_time] under the two parsed
    dates, a list of mappings under [links], [media_content] and
    [media_thumbnail], and mappings under [summary_detail] and [source].
    A key may be missing or hold [None]. *)

Definition is_text_or_none (v : PyVal) : bool :=
  match v with VNone | VStr _ => true | _ => false end.

(** A [struct_time] as the [time] module builds it holds C integers. *)
Definition is_time_or_none (v : PyVal) : bool :=
  match v with
  | VNone => true
  | VTime t =>
      forallb fits_c_int
        [tm_year t; tm_mon t; tm_mday t; tm_hour t; tm_min t; tm_sec t]
  | _ => false
  end.





Definition detail_ok (v : PyVal) : bool :=
  match v with
  | VDict d => is_text_or_none (get d "value")
  | _ => true
  end.

Definition source_ok (o : option PyVal) : bool :=
  match o with
  | Some (VDict d) => is_text_or_none (get d "title")
  | _ => true
  end.


Definition dates_ok (e : RawEntry) : bool :=
  is_time_or_none (get e "published_parsed")
  && is_time_or_none (get e "updated_parsed").



(** The text of a field, empty when the field is missing. *)
Definition text_of (v : PyVal) : pystr :=
  match v with VStr s => s | _ => [] end.

(** ** Reference libraries for worked examples

    Small executable readings of the three libraries, enough to run the
    module on the documents of its test-suite: markup made of text and
    tags, URLs in ASCII. *)

Module Reference.

Definition lt_sign : N := 60%N.
Definition gt_sign : N := 62%N.
Definition dquote : N := 34%N.

(** The text nodes of a fragment, in document order. *)
Fixpoint text_nodes (in_tag : bool) (acc s : pystr) : list pystr :=
  match s with
  | [] => [rev acc]
  | c :: r =>
      if in_tag then
        if (c =? gt_sign)%N then text_nodes false [] r else text_nodes true acc r
      else if (c =? lt_sign)%N then rev acc :: text_nodes true [] r
      else text_nodes false (c :: acc) r
  end.

(** What stands between [<] and [>], tag by tag. *)
Fixpoint tag_bodies (in_tag : bool) (acc s : pystr) : list pystr :=
  match s with
  | [] => []
  | c :: r =>
      if in_tag then
        if (c =? gt_sign)%N then rev acc :: tag_bodies false [] r
        else tag_bodies true (c :: acc) r
      else if (c =? lt_sign)%N then tag_bodies true [] r
      else tag_bodies false [] r
  end.

Fixpoint join_space (pieces : list pystr) : pystr :=
  match pieces with
  | [] => []
  | [p] => p
  | p :: rest => p ++ 32%N :: join_space rest
  end.

Definition ref_get_text (s : pystr) : pystr :=
  join_space (filter (fun p => nonempty p = true) (map strip (text_nodes false [] s))).

Fixpoint until_quote (s : pystr) : pystr :=
  match s with
  | [] => []
  | c :: r => if (c =? dquote)%N then [] else c :: until_quote r
  end.

(** The value of [src="..."] inside a tag body. *)
Fixpoint src_attr (s : pystr) : option pystr :=
  match s with
  | [] => None
  | c :: r =>
      if py_isspace c && startswith r (py "src=" ++ [dquote])
      then Some (until_quote (skipn 5 r))
      else src_attr r
  end.

Definition is_img (body : pystr) : bool :=
  startswith body (py "img")
  && match skipn 3 body with
     | [] => true
     | c :: _ => py_isspace c || (c =? 47)%N
     end.

Definition ref_find_img_src (s : pystr) : option pystr :=
  match filter (fun b => is_img b = true) (tag_bodies false [] s) with
  | body :: _ => src_attr body
  | [] => None
  end.

Definition html_parser : HtmlParser :=
  {| get_text := ref_get_text; find_img_src := ref_find_img_src |}.

(** [urllib.parse.urlsplit], the part that finds the network location:
    leading control characters and spaces go, tabs and line ends go, a
    scheme is split off at the first colon, and what follows [//] up to
    the next [/], [?] or [#] is the location.  A location with one
    square bracket and not the other is refused. *)

Definition is_alpha (c : N) : bool :=
  ((65 <=? c) && (c <=? 90) || (97 <=? c) && (c <=? 122))%N.

Definition scheme_char (c : N) : bool :=
  (is_alpha c || (48 <=? c) && (c <=? 57)
   || (c =? 43) || (c =? 45) || (c =? 46))%N.

Fixpoint lstrip_c0 (s : pystr) : pystr :=
  match s with
  | [] => []
  | c :: r => if (c <=? 32)%N then lstrip_c0 r else s
  end.

Definition unsafe_byte (c : N) : bool := ((c =? 9) || (c =? 10) || (c =? 13))%N.

(** [url.find(':')] with the scheme test: the rest after the scheme. *)
Fixpoint after_scheme (seen : nat) (s whole : pystr) : pystr :=
  match s with
  | [] => whole
  | c :: r =>
      if (c =? 58)%N then
        match seen with
        | O => whole
        | S _ => match whole with
                 | c0 :: _ => if is_alpha c0 then r else whole
                 | [] => whole
                 end
        end
      else if scheme_char c then after_scheme (S seen) r whole
      else
        (* a character outside the scheme alphabet before the colon:
           no scheme, whatever follows *)
        whole
  end.

Fixpoint take_netloc (s : pystr) : pystr :=
  match s with
  | [] => []
  | c :: r => if ((c =? 47) || (c =? 63) || (c =? 35))%N then [] else c :: take_netloc r
  end.

Definition has (c : N) (s : pystr) : bool := existsb (N.eqb c) s.

Definition ref_urlparse_netloc (url : pystr) : Res pystr :=
  let url := filter (fun c => unsafe_byte c = false) (lstrip_c0 url) in
  match after_scheme 0 url url with
  | 47%N :: 47%N :: r =>
      let netloc := take_netloc r in
      if has 91 netloc && negb (has 93 netloc)
         || has 93 netloc && negb (has 91 netloc)
      then Raise (ValueError (py "Invalid IPv6 URL"))
      else Ok netloc
  | _ => Ok []
  end.

Definition url_parser : UrlParser :=
  {| urlparse_netloc := ref_urlparse_netloc |}.

(** A feed parser that answers every URL with one parsed document, as
    the test-suite patches [feedparser.parse]. *)
Definition canned (p : Parsed) : FeedParser := {| parse := fun _ => p |}.

(** Entries as the test-suite builds them, and as the parser does. *)
Definition dict_entries : EntryKind := {| entry_kind := PlainDict |}.
Definition parser_entries : EntryKind := {| entry_kind := ParserDict |}.

(** Replacement fields: a number in decimal.  The examples print no
    container. *)
Definition ref_format_other (v : PyVal) : option pystr :=
  match v with
  | VInt z => Some (py (NilZero.string_of_int (Z.to_int z)))
  | _ => None
  end.

Definition formatter : Formatter := {| format_other := ref_format_other |}.

End Reference.

(** ** The rules of the entry normaliser, stated on their own

    Each definition below says in one piece what a step of the normaliser
    is meant to compute; the theorems relate the code to them. *)

(** The first sentence: the text up to and including the first full stop
    that white space follows, or the whole text when there is none. *)
Fixpoint first_sentence (s : pystr) : pystr :=
  match s with
  | [] => []
  | c :: r =>
      match r with
      | d :: _ => if (c =? dot)%N && py_isspace d then [c] else c :: first_sentence r
      | [] => [c]
      end
  end.

(** The teaser cut from a chosen text. *)
Definition teaser (text : pystr) : option pystr :=
  let t := strip (first_sentence text) in
  if decide (160 < length t)%nat then Some (rstrip (take 157 t) ++ TRUNCATION_MARK)
  else if decide (t = []) then None else Some t.

Section Rules.
Context {HP : HtmlParser} {EK : EntryKind}.

(** Text extraction: the markup stripped from a piece of text, the
    empty string for a missing or empty one. *)
Definition plain_text (v : PyVal) : pystr :=
  match v with
  | VStr (c :: r) => get_text (c :: r)
  | _ => []
  end.

(** The text the subtitle is derived from when the entry carries no
    subtitle of its own: the stripped summary detail, else the summary. *)
Definition derived_text (e : RawEntry) (summary_text : pystr) : option pystr :=
  let detail :=
    match get e "summary_detail" with
    | VDict d => plain_text (get d "value")
    | _ => []
    end in
  if nonempty detail then Some detail
  else if nonempty summary_text then Some summary_text
  else None.

(** The URL an attachment item carries. *)
Definition url_of (item : PyVal) : option PyVal :=
  match item with
  | VDict d =>
      let u := py_or (get d "url") (get d "href") in
      if truthy u then Some u else None
  | _ => None
  end.

Definition first_media_url (v : PyVal) : option PyVal :=
  match v with
  | VList items => head (omap url_of items)
  | _ => None
  end.

(** The target of a link whose MIME type is an image type. *)
Definition image_link_href (item : PyVal) : option PyVal :=
  match item with
  | VDict d =>
      match get_default d "type" (VStr []) with
      | VStr t =>
          if startswith t (py "image") && truthy (get d "href")
          then Some (get d "href") else None
      | _ => None
      end
  | _ => None
  end.

Definition first_image_link (v : PyVal) : option PyVal :=
  match v with
  | VList links => head (omap image_link_href links)
  | _ => None
  end.

(** The first image of a piece of markup; none in a missing or empty
    one. *)
Definition inline_img (markup : PyVal) : option PyVal :=
  match markup with
  | VStr (c :: r) =>
      match find_img_src (c :: r) with
      | Some (x :: y) => Some (VStr (x :: y))
      | _ => None
      end
  | _ => None
  end.

Definition detail_markup (e : RawEntry) : PyVal :=
  match get e "summary_detail" with
  | VDict d => get d "value"
  | _ => VNone
  end.

(** The five places an image is looked for, in order of priority. *)
Definition image_candidates (e : RawEntry) : list (option PyVal) :=
  [ first_media_url (get e "media_content");
    first_media_url (get e "media_thumbnail");
    first_image_link (get e "links");
    inline_img (detail_markup e);
    inline_img (py_or (get e "summary") (entry_get e "description")) ].


End Rules.

(** The parsed time an entry is dated by. *)
Definition parsed_time (e : RawEntry) : option struct_time :=
  match get e "published_parsed" with
  | VTime t => Some t
  | _ => match get e "updated_parsed" with
         | VTime t => Some t
         | _ => None
         end
  end.

(** Every component lies in the range of a calendar date and a time of
    day. *)
Definition components_in_range (t : struct_time) : Prop :=
  1 <= tm_year t <= 9999 /\ 1 <= tm_mon t <= 12
  /\ 1 <= tm_mday t <= days_in_month (tm_year t) (tm_mon t)
  /\ 0 <= tm_hour t <= 23 /\ 0 <= tm_min t <= 59 /\ 0 <= tm_sec t <= 59.

#[global] Instance components_in_range_dec t : Decision (components_in_range t).
Proof. unfold components_in_range. apply _. Defined.

Definition is_digit (c : N) : bool := ((48 <=? c) && (c <=? 57))%N.

(** The number a run of decimal digits spells. *)
Definition digits_value (ds : pystr) : Z :=
  fold_left (fun acc d => 10 * acc + (Z.of_N d - 48)) ds 0.

(** [s] is [YYYY-MM-DDTHH:MM:SS] for the components of [t], with nothing
    after the seconds: no fraction, no zone. *)
Definition iso_local_of (t : struct_time) (s : pystr) : Prop :=
  exists yr mo dy hr mi sc,
    s = yr ++ [45%N] ++ mo ++ [45%N] ++ dy ++ [84%N] ++ hr ++ [58%N] ++ mi ++ [58%N] ++ sc
    /\ length yr = 4%nat
    /\ Forall (fun g => length g = 2%nat) [mo; dy; hr; mi; sc]
    /\ Forall (fun g => forallb is_digit g = true) [yr; mo; dy; hr; mi; sc]
    /\ digits_value yr = tm_year t /\ digits_value mo = tm_mon t
    /\ digits_value dy = tm_mday t /\ digits_value hr = tm_hour t
    /\ digits_value mi = tm_min t /\ digits_value sc = tm_sec t.

(** The published date of an entry. *)
Definition iso8601 (t : struct_time) : pystr :=
  isoformat {| year := tm_year t; month := tm_mon t; day := tm_mday t;
               hour := tm_hour t; minute := tm_min t; second := tm_sec t |}.

Definition published_rule (e : RawEntry) : option pystr :=
  t ← parsed_time e;
  if decide (components_in_range t) then Some (iso8601 t) else None.

(** The attribution an entry names itself: the trimmed title of its
    [source] mapping, when that is not empty. *)
Definition source_title (e : RawEntry) : option pystr :=
  match e !! "source" with
  | Some (VDict src) =>
      match get src "title" with
      | VStr t => if nonempty (strip t) then Some (strip t) else None
      | _ => None
      end
  | _ => None
  end.

(** The trimmed link of an entry. *)
Definition link_text (e : RawEntry) : pystr := strip (text_of (get e "link")).

Section EntryRules.
Context {HP : HtmlParser} {UP : UrlParser} {EK : EntryKind}.


Definition source_rule (e : RawEntry) : option pystr :=
  match source_title e with
  | Some t => Some t
  | None =>
      if nonempty (link_text e) then
        match urlparse_netloc (link_text e) with
        | Ok (c :: r) => Some (c :: r)
        | _ => None
        end
      else None
  end.




End EntryRules.

Section FeedRules.
Context {FP : FeedParser}.

(** The entries [fetch_feed] keeps: the head of the parsed entries, as
    long as the effective limit. *)
Definition kept_entries (feed_url : pystr) (limit : PyVal) : list RawEntry :=
  take (Z.to_nat (effective_limit limit)) (entries (parse (request_url feed_url))).

End FeedRules.

(** The fields of [FeedEntry]. *)
Definition FeedEntry_fields : gset string :=
  {[ "title"; "summary"; "link"; "published"; "source"; "subtitle"; "image" ]}.

(** The keys of an entry that the normaliser reads. *)
Definition entry_keys : list string :=
  [ "title"; "link"; "summary"; "description"; "published_parsed";
    "updated_parsed"; "source"; "media_content"; "media_thumbnail"; "links";
    "summary_detail"; "subtitle" ].

(** The keys of the payload [_serialize_feed] builds. *)
Definition payload_keys : gset string :=
  {[ "feedTitle"; "feedLink"; "entries"; "category"; "categoryName";
     "categoryDescription" ]}.

(** The line of a normalised entry in the prompt. *)
Definition entry_line (fe : FeedEntry) : pystr :=
  story_line (strip (title fe)) (default (py "None") (source fe))
             (default (py "None") (published fe)) (strip (summary fe)).

(** ** Sample documents

    The entries and feeds of the test-suite and of the examples the
    specification gives, for the worked examples below. *)

Module Samples.
Import Reference.

Definition quoted (s : pystr) : pystr := [dquote] ++ s ++ [dquote].

Definition july_4th (h mi : Z) : struct_time :=
  {| tm_year := 2024; tm_mon := 7; tm_mday := 4; tm_hour := h; tm_min := mi;
     tm_sec := 0; tm_wday := 3; tm_yday := 186; tm_isdst := -1 |}.

Definition breaking_story : RawEntry :=
  {[ "title" := VStr (py "Breaking Story");
     "link" := VStr (py "https://example.com/story");
     "summary" := VStr (py "<p>Summary <strong>content</strong>.</p><img src="
                        ++ quoted (py "https://example.com/image.jpg") ++ py "/>");
     "published_parsed" := VTime (july_4th 10 30);
     "source" := VDict {[ "title" := VStr (py "Example Source") ]} ]}.

Definition ignored_story : RawEntry :=
  {[ "title" := VStr (py "Ignored Story");
     "link" := VStr (py "https://example.com/ignored");
     "summary" := VStr (py "<p>Another summary</p>");
     "published_parsed" := VTime (july_4th 11 0) ]}.

Definition sample_feed : Parsed :=
  {| bozo := false; bozo_exception := None;
     feed := {[ "title" := VStr (py "Sample Feed");
                "link" := VStr (py "https://example.com/feed") ]};
     entries := [breaking_story; ignored_story] |}.

(** A feed that names neither itself nor its address. *)
Definition nameless_feed : Parsed :=
  {| bozo := false; bozo_exception := None; feed := ∅;
     entries := [ignored_story] |}.

Definition boom_feed : Parsed :=
  {| bozo := true; bozo_exception := Some (py "boom"); feed := ∅; entries := [] |}.

(** The flag is up and no exception is attached. *)
Definition flagged_feed : Parsed :=
  {| bozo := true; bozo_exception := None;
     feed := {[ "title" := VStr (py "Sample Feed") ]};
     entries := [ignored_story] |}.

Definition feed_address : pystr := py "https://example.com/feed".

(** An entry with a subtitle of its own, 161 characters long. *)
Definition long_subtitle : RawEntry :=
  {[ "subtitle" := VStr (replicate 161 97%N) ]}.




Definition news_link : RawEntry :=
  {[ "link" := VStr (py "https://news.example.com/x") ]}.

(** A link the URL parser refuses: a square bracket that is not closed. *)
Definition broken_link : RawEntry :=
  {[ "link" := VStr (py "http://[news.example.com/x") ]}.

(** A title that is a nested mapping. *)
Definition mapping_title : RawEntry :=
  {[ "title" := VDict {[ "value" := VStr (py "Breaking Story") ]} ]}.

Definition empty_entry : FeedEntry :=
  {| title := []; summary := []; link := []; published := None;
     source := None; subtitle := None; image := VNone |}.

(** A podcast item: a subtitle and no summary. *)
Definition podcast_item : RawEntry :=
  {[ "title" := VStr (py "Episode 1");
     "subtitle" := VStr (py "Only a teaser") ]}.

(** A link whose type is there and is null. *)
Definition null_type_link : RawEntry :=
  {[ "links" := VList [VDict {[ "type" := VNone; "href" := VStr (py "x") ]}] ]}.

(** A parsed time with a year beyond the C integers. *)
Definition far_future : RawEntry :=
  {[ "published_parsed" :=
       VTime {| tm_year := 2147483648; tm_mon := 1; tm_mday := 1;
                tm_hour := 0; tm_min := 0; tm_sec := 0;
                tm_wday := 0; tm_yday := 1; tm_isdst := 0 |} ]}.

(** A published date left as text. *)
Definition text_date : RawEntry :=
  {[ "published_parsed" := VStr (py "2024-07-04") ]}.

(** The floats one half and one hundred and a half. *)
Definition one_half : spec_float := S754_finite false 1 (-1).
Definition hundred_and_a_half : spec_float := S754_finite false 201 (-1).

(** The story with a key the normaliser does not know. *)
Definition signed_story : RawEntry :=
  <["author" := VStr (py "A. Writer")]> breaking_story.

(** The same moment with the three fields of the calendar left at zero. *)
Definition july_4th_bare (h mi : Z) : struct_time :=
  {| tm_year := 2024; tm_mon := 7; tm_mday := 4; tm_hour := h; tm_min := mi;
     tm_sec := 0; tm_wday := 0; tm_yday := 0; tm_isdst := 0 |}.

(** A feed whose second entry has a link the URL parser refuses. *)
Definition spoiled_feed : Parsed :=
  {| bozo := false; bozo_exception := None;
     feed := {[ "title" := VStr (py "Sample Feed") ]};
     entries := [breaking_story; broken_link; ignored_story] |}.

(** An attachment next to links that are no list. *)
Definition attached_with_odd_links : RawEntry :=
  {[ "media_content" := VList [VDict {[ "url" := VStr (py "https://cdn.example.com/a.jpg") ]}];
     "links" := VInt 5 ]}.

Definition sample_result : FeedResult :=
  {| feed_title := VStr (py "Sample Feed");
     feed_link := VStr (py "https://example.com/feed");
     result_entries := [empty_entry] |}.

(** Two descriptions of one category; the second carries the address of
    its feed as well. *)
Definition front_page : gmap string PyVal :=
  {[ "name" := VStr (py "Front Page") ]}.

Definition front_page_with_url : gmap string PyVal :=
  {[ "name" := VStr (py "Front Page"); "url" := VStr DEFAULT_FEED_URL ]}.

(** A story as a client may send it: the title is there and is null. *)
Definition null_title_story : gmap string PyVal :=
  {[ "title" := VNone; "summary" := VStr (py "Summary") ]}.

End Samples.

(** * Properties *)

(** ** The mapping of an entry *)

Lemma get_absent (d : gmap string PyVal) k : d !! k = None -> get d k = VNone.
Proof. unfold get. by intros ->. Qed.

Section Mapping.
Context {EK : EntryKind}.

(** Both kinds of mapping answer ten of the twelve keys from the key
    itself. *)
Lemma entry_lookup_plain (e : RawEntry) k :
  k <> "description" -> k <> "updated_parsed" -> entry_lookup e k = e !! k.
Proof.
  intros Hd Hu. unfold entry_lookup, parser_lookup.
  destruct entry_kind; [reflexivity|]. by rewrite !decide_False.
Qed.

Lemma entry_get_plain (e : RawEntry) k :
  k <> "description" -> k <> "updated_parsed" -> entry_get e k = get e k.
Proof. intros Hd Hu. unfold entry_get, get. by rewrite entry_lookup_plain. Qed.

Lemma entry_get_default_plain (e : RawEntry) k dflt :
  k <> "description" -> k <> "updated_parsed" ->
  entry_get_default e k dflt = get_default e k dflt.
Proof.
  intros Hd Hu. unfold entry_get_default, get_default. by rewrite entry_lookup_plain.
Qed.

(** What [description] is answered from. *)
Lemma entry_get_description (e : RawEntry) :
  entry_get e "description"
  = match entry_kind with
    | PlainDict => get e "description"
    | ParserDict =>
        match e !! "summary" with
        | Some v => v
        | None =>
            match e !! "subtitle" with
            | Some v => v
            | None => get e "description"
            end
        end
    end.
Proof.
  unfold entry_get, entry_lookup, get. destruct entry_kind; [reflexivity|].
  unfold parser_lookup. rewrite decide_True by reflexivity.
  destruct (e !! "summary"); [reflexivity|]. by destruct (e !! "subtitle").
Qed.

(** A missing [updated_parsed] is answered from [published_parsed], which
    stands before it wherever the module asks for both. *)
Lemma entry_get_updated (e : RawEntry) :
  entry_get e "updated_parsed" = get e "updated_parsed"
  \/ e !! "updated_parsed" = None
     /\ entry_get e "updated_parsed" = get e "published_parsed".
Proof.
  unfold entry_get, entry_lookup, get. destruct entry_kind; [by left|].
  unfold parser_lookup. rewrite decide_False by done. rewrite decide_True by reflexivity.
  destruct (e !! "updated_parsed") eqn:E; [by left | by right].
Qed.

End Mapping.

(** The ten keys, rewritten to plain lookups. *)
Ltac entry_plain :=
  rewrite ?(entry_get_plain _ "title"), ?(entry_get_plain _ "link"),
    ?(entry_get_plain _ "summary"), ?(entry_get_plain _ "subtitle"),
    ?(entry_get_plain _ "published_parsed"), ?(entry_get_plain _ "summary_detail"),
    ?(entry_get_plain _ "media_content"), ?(entry_get_plain _ "media_thumbnail"),
    ?(entry_get_default_plain _ "links"), ?(entry_lookup_plain _ "source") by done.

(** ** Strings *)

Lemma length_lstrip s : (length (lstrip s) <= length s)%nat.
Proof.
  induction s as [|c r IH]; simpl; [lia|].
  destruct (py_isspace c); simpl; lia.
Qed.

Lemma length_rstrip s : (length (rstrip s) <= length s)%nat.
Proof.
  unfold rstrip. rewrite length_rev.
  pose proof (length_lstrip (rev s)) as Hl. rewrite length_rev in Hl. exact Hl.
Qed.

Lemma length_strip s : (length (strip s) <= length s)%nat.
Proof.
  unfold strip. pose proof (length_rstrip (lstrip s)). pose proof (length_lstrip s). lia.
Qed.

Lemma nonempty_false s : nonempty s = false <-> s = [].
Proof. destruct s; simpl; split; congruence. Qed.

Lemma nonempty_true s : nonempty s = true <-> s <> [].
Proof. destruct s; simpl; split; congruence. Qed.

Lemma truthy_VStr s : truthy (VStr s) = nonempty s.
Proof. reflexivity. Qed.

Lemma dot_not_space : py_isspace dot = false.
Proof. reflexivity. Qed.

Lemma eqb_dot_not_space c : (c =? dot)%N = true -> py_isspace c = false.
Proof. intros Hc. apply N.eqb_eq in Hc. subst c. reflexivity. Qed.

(** ** Sentences *)

(** What the scan of [re.split] yields first, from any state outside a
    white-space run. *)
Lemma re_split_go_head s : forall prev_dot acc,
  head (re_split_go false prev_dot acc s)
  = Some (rev acc ++
          match s with
          | d :: _ => if prev_dot && py_isspace d then [] else first_sentence s
          | [] => []
          end).
Proof.
  induction s as [|c r IH]; intros prev_dot acc.
  - simpl. by rewrite app_nil_r.
  - cbn [re_split_go]. destruct (py_isspace c) eqn:Hc.
    + destruct prev_dot; cbn [andb].
      * simpl. by rewrite app_nil_r.
      * rewrite IH. cbn [rev]. rewrite <- app_assoc. do 2 f_equal.
        cbn [first_sentence andb app].
        destruct r as [|d r']; [reflexivity|].
        assert ((c =? dot)%N = false) as ->.
        { destruct (c =? dot)%N eqn:E; [|done].
          apply eqb_dot_not_space in E. congruence. }
        reflexivity.
    + rewrite andb_false_r. rewrite IH. cbn [rev]. rewrite <- app_assoc.
      do 2 f_equal. cbn [first_sentence app].
      destruct r as [|d r']; [reflexivity|].
      destruct ((c =? dot)%N && py_isspace d); reflexivity.
Qed.

Lemma re_split_first s :
  exists rest, re_split_sentences s = first_sentence s :: rest.
Proof.
  unfold re_split_sentences.
  pose proof (re_split_go_head s false []) as Hh.
  destruct (re_split_go false false [] s) as [|p rest]; [discriminate|].
  exists rest. simpl in Hh. injection Hh as ->.
  destruct s; reflexivity.
Qed.



(** ** The error monad *)

Lemma bind_Ok {A B} (m : Res A) (f : A -> Res B) b :
  (m ≫= f) = Ok b <-> exists a, m = Ok a /\ f a = Ok b.
Proof.
  destruct m as [a|e]; simpl; split.
  - intros Hf. by exists a.
  - by intros (a' & [= ->] & Hf).
  - discriminate.
  - by intros (a' & [=] & _).
Qed.

Lemma bind_Ok_l {A B} (m : Res A) (f : A -> Res B) a :
  m = Ok a -> (m ≫= f) = f a.
Proof. by intros ->. Qed.

Ltac bind_inv H :=
  let a := fresh "a" in
  let Ha := fresh "Ha" in
  apply bind_Ok in H as (a & Ha & H).

(** ** Subtitles *)

Lemma first_sentence_cut_teaser s : first_sentence_cut s = teaser s.
Proof.
  unfold first_sentence_cut, teaser.
  destruct (re_split_first s) as [rest ->].
  set (t := strip (first_sentence s)).
  destruct (decide (160 < length t)%nat) as [Hlong|Hshort].
  - assert ((160 <? Z.of_nat (length t)) = true) as -> by (apply Z.ltb_lt; lia).
    reflexivity.
  - assert ((160 <? Z.of_nat (length t)) = false) as -> by (apply Z.ltb_ge; lia).
    destruct t; reflexivity.
Qed.

Lemma teaser_length text t :
  teaser text = Some t -> (length t <= 160)%nat.
Proof.
  unfold teaser.
  destruct (decide _) as [Hlong|Hshort].
  - intros [= <-]. rewrite length_app.
    pose proof (length_rstrip (take 157 (strip (first_sentence text)))) as Hr.
    rewrite length_take in Hr. simpl. lia.
  - destruct (decide _); [discriminate|]. intros [= <-]. lia.
Qed.


Section Subtitle.
Context {HP : HtmlParser} {EK : EntryKind}.



(** Without one, the subtitle is the teaser of some text, or none. *)
Lemma derive_subtitle_derived_inv e summary_text r :
  truthy (get e "subtitle") = false ->
  _derive_subtitle e summary_text = Ok r ->
  r = None \/ exists text, r = teaser text.
Proof.
  intros Hno. unfold _derive_subtitle. entry_plain. rewrite Hno.
  intros Hd. bind_inv Hd.
  set (cand := if negb (truthy a) && nonempty summary_text
               then VStr summary_text else a) in Hd.
  destruct (truthy cand); simpl in Hd; [|left; congruence].
  destruct cand; try discriminate.
  right. exists s. rewrite <- first_sentence_cut_teaser. congruence.
Qed.

Lemma derive_subtitle_derived e summary_text :
  truthy (get e "subtitle") = false ->
  detail_ok (get e "summary_detail") = true ->
  _derive_subtitle e summary_text = Ok (derived_text e summary_text ≫= teaser).
Proof.
  intros Hno Hok. unfold _derive_subtitle, derived_text. entry_plain. rewrite Hno.
  assert (forall cand : PyVal, truthy cand = false ->
    (let c := if negb (truthy cand) && nonempty summary_text
              then VStr summary_text else cand in
     if negb (truthy c) then Ok None
     else match c with
          | VStr s => Ok (first_sentence_cut s)
          | _ => Raise TypeError
          end)
    = Ok ((if nonempty summary_text then Some summary_text else None) ≫= teaser))
    as Htail.
  { intros cand Hc. cbn zeta. rewrite Hc. cbn [negb andb].
    destruct summary_text as [|x r]; cbn [nonempty].
    - by rewrite Hc.
    - cbn. by rewrite first_sentence_cut_teaser. }
  destruct (get e "summary_detail") as [| | | | |d|] eqn:Hsd;
    try (cbn [mbind Res_bind nonempty]; by apply Htail).
  simpl in Hok.
  destruct (get d "value") as [| | |[|c v]| | |] eqn:Hv; try discriminate;
    try (cbn [truthy mbind Res_bind nonempty]; by apply Htail).
  unfold _extract_plain_text.
  cbn [truthy negb soup_text mbind Res_bind plain_text].
  destruct (get_text (c :: v)) as [|c' v'] eqn:Ht; cbn [nonempty].
  - by apply Htail.
  - cbn. by rewrite first_sentence_cut_teaser.
Qed.

End Subtitle.

(** ** Images *)

Lemma head_omap_cons {A B} (f : A -> option B) x l :
  head (omap f (x :: l)) = match f x with Some y => Some y | None => head (omap f l) end.
Proof. cbn [omap list_omap]. by destruct (f x). Qed.

Section Image.
Context {HP : HtmlParser} {EK : EntryKind}.


Lemma media_loop_first items : media_loop items = head (omap url_of items).
Proof.
  induction items as [|item rest IH]; [reflexivity|].
  rewrite head_omap_cons. cbn [media_loop].
  destruct item as [| | | | |d|]; try exact IH.
  unfold url_of. destruct (truthy (py_or (get d "url") (get d "href"))); [reflexivity|exact IH].
Qed.

Lemma media_scan_first v : media_scan v = first_media_url v.
Proof. destruct v; try reflexivity. apply media_loop_first. Qed.








End Image.

(** ** Dates *)

Lemma is_digit_digit d : is_digit (digit d) = true.
Proof.
  unfold is_digit, digit. pose proof (Z.mod_pos_bound d 10 ltac:(lia)).
  apply andb_true_iff; split; apply N.leb_le; lia.
Qed.

Lemma digit_value d : Z.of_N (digit d) - 48 = d mod 10.
Proof. unfold digit. pose proof (Z.mod_pos_bound d 10 ltac:(lia)). lia. Qed.

Lemma pad2_value n : 0 <= n <= 99 -> digits_value (pad2 n) = n.
Proof.
  intros Hn. unfold digits_value, pad2. cbn [fold_left].
  rewrite !digit_value. Z.div_mod_to_equations. lia.
Qed.

Lemma pad4_value n : 0 <= n <= 9999 -> digits_value (pad4 n) = n.
Proof.
  intros Hn. unfold digits_value, pad4. cbn [fold_left].
  rewrite !digit_value. Z.div_mod_to_equations. lia.
Qed.

Lemma pad2_digits n : forallb is_digit (pad2 n) = true.
Proof. unfold pad2. cbn [forallb]. by rewrite !is_digit_digit. Qed.

Lemma pad4_digits n : forallb is_digit (pad4 n) = true.
Proof. unfold pad4. cbn [forallb]. by rewrite !is_digit_digit. Qed.

Lemma days_in_month_le y m : days_in_month y m <= 31.
Proof.
  unfold days_in_month. destruct ((m =? 2) && is_leap y); [lia|].
  destruct (Z.to_nat (m - 1)) as [|[|[|[|[|[|[|[|[|[|[|[|k]]]]]]]]]]]]; simpl; try lia.
  destruct k; simpl; lia.
Qed.

Lemma in_range_true lo x hi : in_range lo x hi = true <-> lo <= x <= hi.
Proof. unfold in_range. rewrite andb_true_iff, !Z.leb_le. tauto. Qed.

Lemma fits_c_int_true x : fits_c_int x = true <-> -2147483648 <= x <= 2147483647.
Proof. unfold fits_c_int. rewrite andb_true_iff, !Z.leb_le. tauto. Qed.

Lemma datetime_new_in_range t :
  components_in_range t ->
  datetime_new (tm_year t) (tm_mon t) (tm_mday t) (tm_hour t) (tm_min t) (tm_sec t)
  = Ok {| year := tm_year t; month := tm_mon t; day := tm_mday t;
          hour := tm_hour t; minute := tm_min t; second := tm_sec t |}.
Proof.
  intros (Hy & Hm & Hd & Hh & Hi & Hs). unfold datetime_new.
  pose proof (days_in_month_le (tm_year t) (tm_mon t)) as Hdm.
  assert (forallb fits_c_int
            [tm_year t; tm_mon t; tm_mday t; tm_hour t; tm_min t; tm_sec t] = true)
    as ->.
  { cbn [forallb]. rewrite !andb_true_iff, !fits_c_int_true. lia. }
  apply in_range_true in Hy, Hm, Hd, Hh, Hi, Hs.
  by rewrite Hy, Hm, Hd, Hh, Hi, Hs.
Qed.

Lemma datetime_new_out_of_range t :
  forallb fits_c_int
    [tm_year t; tm_mon t; tm_mday t; tm_hour t; tm_min t; tm_sec t] = true ->
  ~ components_in_range t ->
  exists msg,
    datetime_new (tm_year t) (tm_mon t) (tm_mday t) (tm_hour t) (tm_min t) (tm_sec t)
    = Raise (ValueError msg).
Proof.
  intros Hfits Hno. unfold datetime_new. rewrite Hfits. cbn [negb].
  destruct (in_range 1 (tm_year t) 9999) eqn:Hy; [|by eexists].
  destruct (in_range 1 (tm_mon t) 12) eqn:Hm; [|by eexists].
  destruct (in_range 1 (tm_mday t) _) eqn:Hd; [|by eexists].
  destruct (in_range 0 (tm_hour t) 23) eqn:Hh; [|by eexists].
  destruct (in_range 0 (tm_min t) 59) eqn:Hi; [|by eexists].
  destruct (in_range 0 (tm_sec t) 59) eqn:Hs; [|by eexists].
  exfalso. apply Hno. apply in_range_true in Hy, Hm, Hd, Hh, Hi, Hs. done.
Qed.

Lemma iso8601_spells t : components_in_range t -> iso_local_of t (iso8601 t).
Proof.
  intros (Hy & Hm & Hd & Hh & Hi & Hs).
  pose proof (days_in_month_le (tm_year t) (tm_mon t)) as Hdm.
  exists (pad4 (tm_year t)), (pad2 (tm_mon t)), (pad2 (tm_mday t)),
         (pad2 (tm_hour t)), (pad2 (tm_min t)), (pad2 (tm_sec t)).
  split; [reflexivity|]. split; [reflexivity|].
  split; [repeat constructor|].
  split; [repeat constructor; auto using pad2_digits, pad4_digits|].
  rewrite pad4_value, !pad2_value by lia. done.
Qed.

Section Dates.
Context {HP : HtmlParser} {EK : EntryKind}.

Lemma format_datetime_time t :
  is_time_or_none (VTime t) = true ->
  _format_datetime (VTime t)
  = Ok (if decide (components_in_range t) then Some (iso8601 t) else None).
Proof.
  intros Hfits. unfold _format_datetime. cbn [truthy negb].
  destruct (decide (components_in_range t)) as [Hin|Hout].
  - by rewrite (datetime_new_in_range t Hin).
  - destruct (datetime_new_out_of_range t Hfits Hout) as [msg ->]. reflexivity.
Qed.

Lemma format_datetime_published e :
  dates_ok e = true ->
  _format_datetime (py_or (get e "published_parsed") (get e "updated_parsed"))
  = Ok (published_rule e).
Proof.
  unfold dates_ok, published_rule, parsed_time.
  intros [Hp Hu]%andb_true_iff. unfold py_or.
  destruct (get e "published_parsed") as [| | | | | |t]; try discriminate.
  - cbn [truthy]. destruct (get e "updated_parsed") as [| | | | | |t];
      try discriminate; [reflexivity|]. by apply format_datetime_time.
  - cbn [truthy]. by apply format_datetime_time.
Qed.

(** The same for the times as the entry answers for them. *)
Lemma format_datetime_entry e :
  dates_ok e = true ->
  _format_datetime (py_or (get e "published_parsed") (entry_get e "updated_parsed"))
  = Ok (published_rule e).
Proof.
  intros Hd. destruct (entry_get_updated e) as [-> | [Hnone ->]].
  - by apply format_datetime_published.
  - rewrite <- (format_datetime_published e Hd).
    rewrite (get_absent _ _ Hnone). unfold py_or.
    destruct (truthy (get e "published_parsed")) eqn:T; [reflexivity|].
    unfold _format_datetime. by rewrite T.
Qed.

End Dates.

(** ** Entries *)

Lemma strip_method_text v :
  is_text_or_none v = true ->
  strip_method (py_or v (VStr [])) = Ok (strip (text_of v)).
Proof. destruct v as [| | |[|c r]| | |]; try discriminate; reflexivity. Qed.


Section Entry.
Context {HP : HtmlParser} {UP : UrlParser} {EK : EntryKind}.

(** What a returned entry says about each step that built it. *)
Lemma normalize_entry_inv e fe :
  _normalize_entry e = Ok fe ->
  strip_method (py_or (get e "title") (VStr [])) = Ok (title fe)
  /\ strip_method (py_or (get e "link") (VStr [])) = Ok (link fe)
  /\ _extract_plain_text (py_or (get e "summary") (entry_get e "description"))
     = Ok (summary fe)
  /\ _format_datetime
       (py_or (get e "published_parsed") (entry_get e "updated_parsed"))
     = Ok (published fe)
  /\ _extract_image e = Ok (image fe)
  /\ _derive_subtitle e (summary fe) = Ok (subtitle fe)
  /\ exists named,
       match e !! "source" with
       | Some (VDict src) =>
           t ← strip_method (py_or (get src "title") (VStr []));
           Ok (if nonempty t then Some t else None)
       | _ => Ok None
       end = Ok named
       /\ match named with
          | Some _ => Ok named
          | None =>
              if nonempty (link fe)
              then netloc ← urlparse_netloc (link fe);
                   Ok (if nonempty netloc then Some netloc else named)
              else Ok named
          end = Ok (source fe).
Proof.
  unfold _normalize_entry. entry_plain. intros Hn.
  bind_inv Hn. bind_inv Hn. bind_inv Hn. bind_inv Hn. bind_inv Hn.
  bind_inv Hn. bind_inv Hn. bind_inv Hn.
  injection Hn as <-. cbn. repeat (split; [done|]). by eexists.
Qed.

Lemma explicit_source_rule e :
  source_ok (e !! "source") = true ->
  match e !! "source" with
  | Some (VDict src) =>
      t ← strip_method (py_or (get src "title") (VStr []));
      Ok (if nonempty t then Some t else None)
  | _ => Ok None
  end = Ok (source_title e).
Proof.
  unfold source_ok, source_title.
  destruct (e !! "source") as [[| | | | |src|]|]; try reflexivity.
  intros Hok. rewrite (strip_method_text _ Hok). cbn [mbind Res_bind].
  destruct (get src "title") as [| | |t| | |]; try discriminate; try reflexivity.
Qed.


End Entry.

Section EntrySource.
Context {HP : HtmlParser} {UP : UrlParser} {EK : EntryKind}.

(** The attribution of a returned entry. *)
Lemma normalize_entry_source e fe :
  _normalize_entry e = Ok fe ->
  source_ok (e !! "source") = true -> is_text_or_none (get e "link") = true ->
  source fe = source_rule e.
Proof.
  intros Hn Hs Hl.
  destruct (normalize_entry_inv _ _ Hn) as (_ & Hlink & _ & _ & _ & _ & named & Hnamed & Hsrc).
  rewrite (strip_method_text _ Hl) in Hlink. injection Hlink as Hlink.
  fold (link_text e) in Hlink. rewrite <- Hlink in Hsrc.
  rewrite (explicit_source_rule _ Hs) in Hnamed. injection Hnamed as <-.
  unfold source_rule. destruct (source_title e) as [t|]; [congruence|].
  destruct (nonempty (link_text e)); [|congruence].
  destruct (urlparse_netloc (link_text e)) as [[|c r]|];
    cbn [mbind Res_bind nonempty] in Hsrc; try congruence.
  by injection Hsrc.
Qed.

End EntrySource.

(** ** Feeds *)

Lemma effective_limit_range limit : 1 <= effective_limit limit <= 100.
Proof.
  unfold effective_limit, MAX_ITEMS. destruct (as_int limit) as [n|]; [|lia].
  destruct (n <=? 0) eqn:E; [lia|]. apply Z.leb_gt in E. lia.
Qed.

Lemma slice_to_take {A} (l : list A) k : 0 <= k -> slice_to l k = take (Z.to_nat k) l.
Proof.
  intros Hk. unfold slice_to.
  assert ((k <? 0) = false) as -> by (apply Z.ltb_ge; lia). reflexivity.
Qed.

Section Feed.
Context {HP : HtmlParser} {UP : UrlParser} {EK : EntryKind}.

Lemma normalize_all_Forall2 raw fes :
  normalize_all raw = Ok fes
  <-> Forall2 (fun entry fe => _normalize_entry entry = Ok fe) raw fes.
Proof.
  revert fes. induction raw as [|entry rest IH]; intros fes; cbn [normalize_all].
  - split.
    + intros [= <-]. constructor.
    + intros Hf. by inversion Hf.
  - split.
    + intros Hn. bind_inv Hn. bind_inv Hn. injection Hn as <-.
      constructor; [done|]. by apply IH.
    + intros Hf. inversion Hf as [|? fe ? fes' Hfe Hrest]; subst.
      rewrite Hfe. cbn [mbind Res_bind].
      apply IH in Hrest. rewrite Hrest. reflexivity.
Qed.

Context {FP : FeedParser}.

Lemma feed_field_default (feed : gmap string PyVal) key dflt :
  py_or (if truthy (VDict feed) then get feed key else VStr []) dflt
  = py_or (get feed key) dflt.
Proof.
  cbn [truthy]. destruct (bool_decide (feed = ∅)) eqn:E; cbn [negb]; [|reflexivity].
  apply bool_decide_eq_true in E. subst feed. unfold get.
  rewrite lookup_empty. reflexivity.
Qed.

(** [fetch_feed] once the malformed-feed check has passed: the limit is
    settled, then the entries are normalised. *)
Lemma fetch_feed_counted feed_url (limit : Limit) :
  let parsed := parse (request_url feed_url) in
  bozo parsed = false \/ bozo_exception parsed = None ->
  fetch_feed feed_url limit
  = (k ← limit_count limit;
     fes ← normalize_all (slice_to (entries parsed) k);
     Ok {| feed_title := py_or (get (feed parsed) "title") (VStr (py "RSS Feed"));
           feed_link := py_or (get (feed parsed) "link") (VStr (request_url feed_url));
           result_entries := fes |}).
Proof.
  intros parsed Hpass. unfold fetch_feed. fold parsed.
  assert ((if bozo parsed then bozo_exception parsed else None) = None) as ->.
  { destruct Hpass as [-> | ->]; [reflexivity | by destruct (bozo parsed)]. }
  by rewrite !feed_field_default.
Qed.

(** The same for a limit that is no [float]. *)
Lemma fetch_feed_passed feed_url (limit : PyVal) :
  let parsed := parse (request_url feed_url) in
  bozo parsed = false \/ bozo_exception parsed = None ->
  fetch_feed feed_url limit
  = (fes ← normalize_all (kept_entries feed_url limit);
     Ok {| feed_title := py_or (get (feed parsed) "title") (VStr (py "RSS Feed"));
           feed_link := py_or (get (feed parsed) "link") (VStr (request_url feed_url));
           result_entries := fes |}).
Proof.
  intros parsed Hpass. rewrite (fetch_feed_counted _ _ Hpass).
  cbn [limit_count mbind Res_bind]. fold parsed.
  rewrite slice_to_take by (pose proof (effective_limit_range limit); lia).
  reflexivity.
Qed.

Lemma fetch_feed_failed feed_url limit cause :
  let parsed := parse (request_url feed_url) in
  bozo parsed = true -> bozo_exception parsed = Some cause ->
  fetch_feed feed_url limit
  = Raise (ValueError (py "Unable to parse feed: " ++ cause)).
Proof. intros parsed Hb Hc. unfold fetch_feed. fold parsed. by rewrite Hb, Hc. Qed.

Lemma fetch_feed_Ok_passed feed_url limit r :
  fetch_feed feed_url limit = Ok r ->
  let parsed := parse (request_url feed_url) in
  bozo parsed = false \/ bozo_exception parsed = None.
Proof.
  intros Hr parsed. destruct (bozo parsed) eqn:Hb; [|by left].
  destruct (bozo_exception parsed) as [cause|] eqn:Hc; [|by right].
  rewrite (fetch_feed_failed _ _ _ Hb Hc) in Hr. discriminate.
Qed.

End Feed.

(** * The specification's claims *)


Section Claims.
Context {HP : HtmlParser} {UP : UrlParser} {EK : EntryKind}.


(** C2, as amended: when the entry carries no subtitle of its own, the
    subtitle of the normalised entry, if it is not null, is at most 160
    characters long. *)
Theorem subtitle_length (e : RawEntry) (fe : FeedEntry) (s : pystr) :
  truthy (get e "subtitle") = false ->
  _normalize_entry e = Ok fe -> subtitle fe = Some s ->
  (length s <= 160)%nat.
Proof.
  intros Hno Hn Hs.
  destruct (normalize_entry_inv _ _ Hn) as (_ & _ & _ & _ & _ & Hsub & _).
  rewrite Hs in Hsub.
  destruct (derive_subtitle_derived_inv _ _ _ Hno Hsub) as [|[text Ht]]; [discriminate|].
  by apply (teaser_length text).
Qed.



(** X22: for an entry whose two parsed dates are missing, null or a
    parsed time with components that fit a C integer, the published date
    is computed from the parsed published time when there is one, else
    from the parsed updated time; it is the ISO-8601 text of the six
    components, with no zone; without a time, or with a component out of
    the range of a date or a time of day, it is null, and nothing is
    raised. *)
Theorem published_iso (e : RawEntry) :
  dates_ok e = true ->
  _format_datetime (py_or (get e "published_parsed") (get e "updated_parsed"))
  = Ok (published_rule e)
  /\ (forall fe, _normalize_entry e = Ok fe -> published fe = published_rule e)
  /\ (parsed_time e = None -> published_rule e = None)
  /\ (forall t, parsed_time e = Some t ->
        (components_in_range t ->
           exists s, published_rule e = Some s /\ iso_local_of t s)
        /\ (~ components_in_range t -> published_rule e = None)).
Proof.
  intros Hd. pose proof (format_datetime_published e Hd) as Hf.
  split; [exact Hf|]. split; [|split].
  - intros fe Hn.
    destruct (normalize_entry_inv _ _ Hn) as (_ & _ & _ & Hp & _).
    rewrite (format_datetime_entry e Hd) in Hp. by injection Hp.
  - unfold published_rule. by intros ->.
  - intros t Ht. unfold published_rule. rewrite Ht. cbn [mbind option_bind].
    split; intros Hr.
    + exists (iso8601 t). split; [by rewrite decide_True | by apply iso8601_spells].
    + by rewrite decide_False.
Qed.

End Claims.

Section FeedClaims.
Context {HP : HtmlParser} {UP : UrlParser} {EK : EntryKind} {FP : FeedParser}.

(** X23: for a limit that is no [float], [fetch_feed] keeps the first
    [k] parsed entries, in the order of the feed, where [k] is 100 when
    the limit is left out, is not a number or is not positive, and the
    smaller of the limit and 100 otherwise.  The result never has more
    than [k] entries, and what lies beyond the first [k] is dropped
    unread: the call succeeds as soon as the kept entries normalise. *)
Theorem fetch_feed_limit (feed_url : pystr) (limit : PyVal) :
  exists k : nat,
    (limit = VNone -> k = 100%nat)
    /\ (as_int limit = None -> k = 100%nat)
    /\ (forall n, as_int limit = Some n -> n <= 0 -> k = 100%nat)
    /\ (forall n, as_int limit = Some n -> 0 < n -> Z.of_nat k = Z.min n 100)
    /\ (forall r, fetch_feed feed_url limit = Ok r ->
          (length (result_entries r) <= k)%nat
          /\ Forall2 (fun entry fe => _normalize_entry entry = Ok fe)
               (take k (entries (parse (request_url feed_url))))
               (result_entries r))
    /\ (forall fes,
          bozo (parse (request_url feed_url)) = false
          \/ bozo_exception (parse (request_url feed_url)) = None ->
          Forall2 (fun entry fe => _normalize_entry entry = Ok fe)
            (take k (entries (parse (request_url feed_url)))) fes ->
          exists r, fetch_feed feed_url limit = Ok r /\ result_entries r = fes).
Proof.
  exists (Z.to_nat (effective_limit limit)).
  pose proof (effective_limit_range limit) as Hrange.
  split; [by intros ->|].
  split; [unfold effective_limit; by intros ->|].
  split.
  { intros n Hn Hle. unfold effective_limit. rewrite Hn.
    assert ((n <=? 0) = true) as -> by (by apply Z.leb_le). reflexivity. }
  split.
  { intros n Hn Hpos. unfold effective_limit, MAX_ITEMS in *. rewrite Hn in *.
    assert ((n <=? 0) = false) as E by (apply Z.leb_gt; lia).
    rewrite E in *. lia. }
  split.
  - intros r Hr. pose proof (fetch_feed_Ok_passed _ _ _ Hr) as Hpass.
    rewrite (fetch_feed_passed _ _ Hpass) in Hr. bind_inv Hr. injection Hr as <-.
    cbn [result_entries]. apply normalize_all_Forall2 in Ha.
    split; [|exact Ha].
    apply Forall2_length in Ha. rewrite <- Ha. unfold kept_entries.
    rewrite length_take. lia.
  - intros fes Hpass Hall. rewrite (fetch_feed_passed _ _ Hpass).
    apply normalize_all_Forall2 in Hall. unfold kept_entries. rewrite Hall.
    cbn [mbind Res_bind]. by eexists.
Qed.

(** C4: when the parse signals a malformed feed and names a cause,
    [fetch_feed] raises an error whose message contains the description of
    the cause, and returns no result. *)
Theorem fetch_feed_malformed (feed_url : pystr) (limit : PyVal) (cause : pystr) :
  bozo (parse (request_url feed_url)) = true ->
  bozo_exception (parse (request_url feed_url)) = Some cause ->
  (exists msg, fetch_feed feed_url limit = Raise (ValueError msg) /\ contains msg cause)
  /\ forall r, fetch_feed feed_url limit <> Ok r.
Proof.
  intros Hb Hc. rewrite (fetch_feed_failed _ _ _ Hb Hc). split; [|discriminate].
  eexists. split; [reflexivity|].
  exists (py "Unable to parse feed: "), []. by rewrite app_nil_r.
Qed.

(** C9: on a successful call, a feed without a title is given the
    placeholder title, and a feed without a link is given the URL that was
    requested: the argument itself when it is not empty and has no white
    space around it. *)
Theorem fetch_feed_defaults (feed_url : pystr) (limit : PyVal) (r : FeedResult) :
  fetch_feed feed_url limit = Ok r ->
  (feed (parse (request_url feed_url)) !! "title" = None ->
     feed_title r = VStr (py "RSS Feed"))
  /\ (feed (parse (request_url feed_url)) !! "link" = None ->
      feed_link r = VStr (request_url feed_url)
      /\ (feed_url <> [] -> strip feed_url = feed_url -> feed_link r = VStr feed_url)).
Proof.
  intros Hr. pose proof (fetch_feed_Ok_passed _ _ _ Hr) as Hpass.
  rewrite (fetch_feed_passed _ _ Hpass) in Hr. bind_inv Hr. injection Hr as <-.
  cbn [feed_title feed_link]. split.
  - intros Ht. by rewrite (get_absent _ _ Ht).
  - intros Hl. rewrite (get_absent _ _ Hl). split; [reflexivity|].
    intros Hne Hs. unfold request_url. apply nonempty_true in Hne.
    by rewrite Hne, Hs.
Qed.

(** C10: with the malformed-feed flag up and no exception attached,
    [fetch_feed] goes on as for a sound feed and returns the result built
    from the feed's title, link and kept entries; when the kept entries
    normalise, the call fails exactly when the flag and a cause are both
    there. *)
Theorem fetch_feed_flag_without_cause (feed_url : pystr) (limit : PyVal)
    (fes : list FeedEntry) :
  normalize_all (kept_entries feed_url limit) = Ok fes ->
  (bozo_exception (parse (request_url feed_url)) = None ->
     fetch_feed feed_url limit
     = Ok {| feed_title := py_or (get (feed (parse (request_url feed_url))) "title")
                                 (VStr (py "RSS Feed"));
             feed_link := py_or (get (feed (parse (request_url feed_url))) "link")
                                (VStr (request_url feed_url));
             result_entries := fes |})
  /\ (is_ok (fetch_feed feed_url limit) = false
      <-> bozo (parse (request_url feed_url)) = true
          /\ bozo_exception (parse (request_url feed_url)) <> None).
Proof.
  intros Hall. split.
  - intros Hnone. rewrite fetch_feed_passed by (by right). by rewrite Hall.
  - split.
    + intros Hfail.
      destruct (bozo (parse (request_url feed_url))) eqn:Hb.
      * destruct (bozo_exception (parse (request_url feed_url))) eqn:Hc; [done|].
        rewrite fetch_feed_passed in Hfail by (by right).
        rewrite Hall in Hfail. discriminate.
      * rewrite fetch_feed_passed in Hfail by (by left).
        rewrite Hall in Hfail. discriminate.
    + intros [Hb Hc].
      destruct (bozo_exception (parse (request_url feed_url))) as [cause|] eqn:Hc';
        [|done].
      by rewrite (fetch_feed_failed _ _ _ Hb Hc').
Qed.

(** X24: a [float] for a limit, once the malformed-feed check has
    passed.  A limit that is at most zero (a zero, a negative number,
    minus infinity) stands for no limit; a positive finite one stands for
    its whole part, so that a limit below one keeps no entry at all; a NaN
    and plus infinity have no whole part, and [fetch_feed] raises. *)
Theorem fetch_feed_float_limit (feed_url : pystr) (f : spec_float) :
  bozo (parse (request_url feed_url)) = false
  \/ bozo_exception (parse (request_url feed_url)) = None ->
  (SFleb f (S754_zero false) = true ->
     fetch_feed feed_url (LimitFloat f) = fetch_feed feed_url VNone)
  /\ (forall m e, f = S754_finite false m e ->
        (1 <= Z.shiftl (Z.pos m) e ->
           fetch_feed feed_url (LimitFloat f)
           = fetch_feed feed_url (VInt (Z.shiftl (Z.pos m) e)))
        /\ (Z.shiftl (Z.pos m) e = 0 ->
            exists r, fetch_feed feed_url (LimitFloat f) = Ok r
                      /\ result_entries r = []))
  /\ (f = S754_nan ->
      fetch_feed feed_url (LimitFloat f)
      = Raise (ValueError (py "cannot convert float NaN to integer")))
  /\ (f = S754_infinity false ->
      fetch_feed feed_url (LimitFloat f) = Raise OverflowError).
Proof.
  intros Hpass. rewrite (fetch_feed_counted _ (LimitFloat f) Hpass).
  split; [|split; [|split]].
  - intros Hle. rewrite (fetch_feed_counted _ VNone Hpass).
    cbn [limit_count]. by rewrite Hle.
  - intros m e ->.
    rewrite (fetch_feed_counted _ (VInt (Z.shiftl (Z.pos m) e)) Hpass).
    change (limit_count (LimitFloat (S754_finite false m e)))
      with (Ok (Z.min (Z.shiftl (Z.pos m) e) MAX_ITEMS)).
    split.
    + intros Hpos.
      change (limit_count (LimitValue (VInt (Z.shiftl (Z.pos m) e))))
        with (Ok (if Z.shiftl (Z.pos m) e <=? 0 then MAX_ITEMS
                  else Z.min (Z.shiftl (Z.pos m) e) MAX_ITEMS)).
      destruct (Z.leb_spec (Z.shiftl (Z.pos m) e) 0); [lia | reflexivity].
    + intros ->. eexists. split; reflexivity.
  - by intros ->.
  - by intros ->.
Qed.

End FeedClaims.

Section SourceClaim.
Context {HP : HtmlParser} {UP : UrlParser} {EK : EntryKind}.

(** X1: source attribution where the normaliser returns: the source is
    the trimmed title of the entry's source mapping when that is not
    empty; otherwise the network location of the link, when the link is
    not empty and the URL parser finds a location in it; otherwise null. *)
Theorem source_attribution (e : RawEntry) (fe : FeedEntry) :
  source_ok (e !! "source") = true -> is_text_or_none (get e "link") = true ->
  _normalize_entry e = Ok fe ->
  (forall t, source_title e = Some t -> source fe = Some t)
  /\ (forall netloc, source_title e = None -> link_text e <> [] ->
        urlparse_netloc (link_text e) = Ok netloc -> netloc <> [] ->
        source fe = Some netloc)
  /\ (source_title e = None ->
      link_text e = [] \/ urlparse_netloc (link_text e) = Ok [] ->
      source fe = None).
Proof.
  intros Hs Hl Hn. rewrite (normalize_entry_source _ _ Hn Hs Hl).
  unfold source_rule. split; [|split].
  - by intros t ->.
  - intros netloc -> Hne Hnet Hnn. apply nonempty_true in Hne. rewrite Hne, Hnet.
    by destruct netloc.
  - intros -> [-> | Hnet]; [reflexivity|].
    rewrite Hnet. by destruct (nonempty (link_text e)).
Qed.

End SourceClaim.

(** * Further properties

    What the code shows beyond the claims: invariants of a returned
    entry, the way a failure and the limit travel through [fetch_feed],
    and the payload and the prompt [app.py] builds from its result. *)

(** ** Trimmed text *)

Lemma lstrip_head s c r : lstrip s = c :: r -> py_isspace c = false.
Proof.
  induction s as [|x s IH]; [discriminate|]. cbn [lstrip].
  destruct (py_isspace x) eqn:Hx; [exact IH|]. by intros [= <- _].
Qed.

Lemma lstrip_fixed c r : py_isspace c = false -> lstrip (c :: r) = c :: r.
Proof. intros Hc. cbn [lstrip]. by rewrite Hc. Qed.

Lemma lstrip_snoc s c :
  lstrip (s ++ [c])
  = match lstrip s with
    | [] => if py_isspace c then [] else [c]
    | x :: t => (x :: t) ++ [c]
    end.
Proof.
  induction s as [|x s IH]; [reflexivity|].
  cbn [app lstrip]. by destruct (py_isspace x).
Qed.

Lemma rstrip_cons c r :
  rstrip (c :: r)
  = match rstrip r with
    | [] => if py_isspace c then [] else [c]
    | x :: t => c :: x :: t
    end.
Proof.
  unfold rstrip. cbn [rev]. rewrite lstrip_snoc.
  destruct (lstrip (rev r)) as [|x t] eqn:E; cbn [rev].
  - by destruct (py_isspace c).
  - rewrite rev_app_distr. cbn [rev app].
    destruct (rev t ++ [x]) eqn:E'; [by destruct (rev t)|]. reflexivity.
Qed.

Lemma rstrip_snoc a c : py_isspace c = false -> rstrip (a ++ [c]) = a ++ [c].
Proof.
  intros Hc. unfold rstrip. rewrite rev_app_distr. cbn [rev app].
  rewrite (lstrip_fixed _ _ Hc). cbn [rev]. by rewrite rev_involutive.
Qed.

Lemma rstrip_keeps_head c r :
  py_isspace c = false -> exists r', rstrip (c :: r) = c :: r'.
Proof.
  intros Hc. rewrite rstrip_cons. destruct (rstrip r); [|by eexists].
  rewrite Hc. by eexists.
Qed.

Lemma rstrip_fixed s : rstrip (rstrip s) = rstrip s.
Proof.
  unfold rstrip. rewrite rev_involutive. f_equal.
  destruct (lstrip (rev s)) as [|c r] eqn:E; [reflexivity|].
  apply lstrip_fixed. by apply (lstrip_head _ _ _ E).
Qed.

Lemma rstrip_last s a c : rstrip s = a ++ [c] -> py_isspace c = false.
Proof.
  unfold rstrip. intros Hr. apply (f_equal (@rev N)) in Hr.
  rewrite rev_involutive, rev_app_distr in Hr. cbn [rev app] in Hr.
  by apply (lstrip_head _ _ _ Hr).
Qed.

Lemma strip_head s c r : strip s = c :: r -> py_isspace c = false.
Proof.
  unfold strip. destruct (lstrip s) as [|x t] eqn:E; [discriminate|].
  pose proof (lstrip_head _ _ _ E) as Hx.
  destruct (rstrip_keeps_head x t Hx) as [r' ->]. by intros [= <- _].
Qed.

Lemma strip_last s a c : strip s = a ++ [c] -> py_isspace c = false.
Proof. unfold strip. apply rstrip_last. Qed.

(** Trimming what is trimmed changes nothing. *)
Lemma strip_strip s : strip (strip s) = strip s.
Proof.
  destruct (strip s) as [|c r] eqn:E; [reflexivity|].
  pose proof (strip_head _ _ _ E) as Hc. rewrite <- E.
  unfold strip at 1. rewrite E, (lstrip_fixed _ _ Hc), <- E.
  unfold strip. apply rstrip_fixed.
Qed.

Lemma strip_method_trimmed v s : strip_method v = Ok s -> strip s = s.
Proof. destruct v; try discriminate. intros [= <-]. apply strip_strip. Qed.

Lemma teaser_nil : teaser [] = None.
Proof. reflexivity. Qed.

(** A teaser is trimmed, cut or not: the mark ends in no white space. *)
Lemma teaser_trimmed text t : teaser text = Some t -> strip t = t.
Proof.
  unfold teaser. set (s := strip (first_sentence text)).
  destruct (decide _) as [Hlong|Hshort].
  - intros [= <-]. destruct s as [|c r] eqn:E; [simpl in Hlong; lia|].
    pose proof (strip_head _ _ _ E) as Hc.
    change (take 157 (c :: r)) with (c :: take 156 r).
    destruct (rstrip_keeps_head c (take 156 r) Hc) as [r' ->].
    unfold strip. cbn [app]. rewrite (lstrip_fixed _ _ Hc).
    unfold TRUNCATION_MARK.
    replace (c :: r' ++ [226%N; 8364%N; 166%N])
      with ((c :: r' ++ [226%N; 8364%N]) ++ [166%N])
      by (cbn [app]; by rewrite <- app_assoc).
    by apply rstrip_snoc.
  - destruct (decide _); [discriminate|]. intros [= <-]. apply strip_strip.
Qed.

(** A text with no full stop before white space is one sentence. *)
Lemma first_sentence_whole s :
  (forall a d b, s = a ++ dot :: d :: b -> py_isspace d = false) ->
  first_sentence s = s.
Proof.
  induction s as [|c r IH]; [reflexivity|]. intros Hno.
  cbn [first_sentence]. destruct r as [|d r']; [reflexivity|].
  destruct ((c =? dot)%N && py_isspace d) eqn:E.
  - apply andb_true_iff in E as [Hc Hd]. apply N.eqb_eq in Hc. subst c.
    specialize (Hno [] d r' eq_refl). congruence.
  - f_equal. apply IH. intros a x b Heq. apply (Hno (c :: a) x b).
    by rewrite Heq.
Qed.

(** ** Dates *)

Lemma datetime_new_Ok y mo d h mi s dt :
  datetime_new y mo d h mi s = Ok dt ->
  dt = {| year := y; month := mo; day := d; hour := h; minute := mi; second := s |}
  /\ 1 <= y <= 9999 /\ 1 <= mo <= 12 /\ 1 <= d <= days_in_month y mo
  /\ 0 <= h <= 23 /\ 0 <= mi <= 59 /\ 0 <= s <= 59.
Proof.
  unfold datetime_new.
  destruct (forallb fits_c_int _); cbn [negb]; [|discriminate].
  destruct (in_range 1 y 9999) eqn:Hy; cbn [negb]; [|discriminate].
  destruct (in_range 1 mo 12) eqn:Hm; cbn [negb]; [|discriminate].
  destruct (in_range 1 d _) eqn:Hd; cbn [negb]; [|discriminate].
  destruct (in_range 0 h 23) eqn:Hh; cbn [negb]; [|discriminate].
  destruct (in_range 0 mi 59) eqn:Hi; cbn [negb]; [|discriminate].
  destruct (in_range 0 s 59) eqn:Hs; cbn [negb]; [|discriminate].
  intros [= <-]. apply in_range_true in Hy, Hm, Hd, Hh, Hi, Hs. done.
Qed.

Lemma length_isoformat dt : length (isoformat dt) = 19%nat.
Proof. reflexivity. Qed.

(** ** Mappings *)

Lemma get_agree (e1 e2 : RawEntry) k : e1 !! k = e2 !! k -> get e1 k = get e2 k.
Proof. unfold get. by intros ->. Qed.

Lemma get_present (d : gmap string PyVal) k v : d !! k = Some v -> get d k = v.
Proof. unfold get. by intros ->. Qed.

Lemma get_default_present (d : gmap string PyVal) k v dflt :
  d !! k = Some v -> get_default d k dflt = v.
Proof. unfold get_default. by intros ->. Qed.

Lemma get_default_absent (d : gmap string PyVal) k dflt :
  d !! k = None -> get_default d k dflt = dflt.
Proof. unfold get_default. by intros ->. Qed.

Lemma VDict_inj d1 d2 : VDict d1 = VDict d2 -> d1 = d2.
Proof. by intros [= ->]. Qed.

Lemma list_map_injective {A B} (f : A -> B) :
  (forall x y, f x = f y -> x = y) ->
  forall l1 l2, map f l1 = map f l2 -> l1 = l2.
Proof.
  intros Hf. induction l1 as [|a l1 IH]; intros [|b l2]; try discriminate; [done|].
  cbn [map]. intros [= Ha Hl]. f_equal; [by apply Hf | by apply IH].
Qed.

Lemma FeedEntry_eq fe1 fe2 :
  title fe1 = title fe2 -> summary fe1 = summary fe2 -> link fe1 = link fe2 ->
  published fe1 = published fe2 -> source fe1 = source fe2 ->
  subtitle fe1 = subtitle fe2 -> image fe1 = image fe2 -> fe1 = fe2.
Proof. destruct fe1, fe2. simpl. by intros -> -> -> -> -> -> ->. Qed.

Lemma FeedResult_eq r1 r2 :
  feed_title r1 = feed_title r2 -> feed_link r1 = feed_link r2 ->
  result_entries r1 = result_entries r2 -> r1 = r2.
Proof. destruct r1, r2. simpl. by intros -> -> ->. Qed.

(** ** Entries *)

Section EntryFacts.
Context {HP : HtmlParser} {UP : UrlParser} {EK : EntryKind}.

Lemma format_datetime_Some v s :
  _format_datetime v = Ok (Some s) ->
  exists t, v = VTime t /\ components_in_range t /\ s = iso8601 t.
Proof.
  unfold _format_datetime. destruct (truthy v); cbn [negb]; [|discriminate].
  destruct v as [| | | | | |t]; try discriminate.
  destruct (datetime_new _ _ _ _ _ _) as [dt|ex] eqn:Hdt.
  - intros [= <-]. apply datetime_new_Ok in Hdt as (-> & Hr). by exists t.
  - destruct ex; discriminate.
Qed.

Lemma first_media_url_truthy v u : first_media_url v = Some u -> truthy u = true.
Proof.
  destruct v as [| | | |items| |]; try discriminate. cbn [first_media_url].
  induction items as [|item rest IH]; [discriminate|].
  rewrite head_omap_cons. destruct (url_of item) as [u'|] eqn:Hu; [|exact IH].
  intros [= ->]. destruct item; try discriminate. unfold url_of in Hu.
  destruct (truthy (py_or _ _)) eqn:E; [|discriminate]. by injection Hu as <-.
Qed.

Lemma links_loop_truthy links u : links_loop links = Ok (Some u) -> truthy u = true.
Proof.
  induction links as [|item rest IH]; [discriminate|]. cbn [links_loop].
  destruct item as [| | | | |d|]; try exact IH.
  intros Hl. bind_inv Hl.
  destruct (a && truthy (get d "href")) eqn:E; [|by apply IH].
  injection Hl as <-. by apply andb_true_iff in E as [_ E].
Qed.

Lemma soup_img_truthy v u : soup_img v = Ok (Some u) -> truthy u = true.
Proof.
  destruct v as [| | |s| | |]; try discriminate. cbn [soup_img].
  destruct (find_img_src s) as [src|]; [|discriminate].
  destruct (nonempty src) eqn:E; [|discriminate]. by intros [= <-].
Qed.

(** X2: whatever the entry holds, an entry that [_normalize_entry]
    returns has a trimmed title and a trimmed link, a source that is null
    or not empty, never the empty string, and a published date that is
    null or 19 characters long; with an empty link and no [source] key the
    source is null. *)
Theorem normalize_entry_invariants (e : RawEntry) (fe : FeedEntry) :
  _normalize_entry e = Ok fe ->
  strip (title fe) = title fe
  /\ strip (link fe) = link fe
  /\ source fe <> Some []
  /\ (forall p, published fe = Some p -> length p = 19%nat)
  /\ (link fe = [] -> e !! "source" = None -> source fe = None).
Proof.
  intros Hn.
  destruct (normalize_entry_inv _ _ Hn)
    as (Ht & Hl & _ & Hp & _ & _ & named & Hnamed & Hsrc).
  split; [by apply (strip_method_trimmed _ _ Ht)|].
  split; [by apply (strip_method_trimmed _ _ Hl)|].
  assert (named <> Some []) as Hnn.
  { destruct (e !! "source") as [[| | | | |src|]|]; try by injection Hnamed as <-.
    bind_inv Hnamed. injection Hnamed as <-. by destruct a. }
  split; [|split].
  - destruct named as [t|]; [congruence|].
    destruct (nonempty (link fe)); [|congruence].
    bind_inv Hsrc. injection Hsrc as <-. by destruct a.
  - intros p Hpub. rewrite Hpub in Hp.
    apply format_datetime_Some in Hp as (t & _ & _ & ->). apply length_isoformat.
  - intros Hlink Hnone. rewrite Hnone in Hnamed. injection Hnamed as <-.
    rewrite Hlink in Hsrc. cbn in Hsrc. congruence.
Qed.

(** X3: the normaliser reads twelve keys of an entry and no other: two
    entries that agree on them are normalised alike, to the same entry or
    to the same exception, whatever else they hold. *)
Theorem normalize_entry_reads (e1 e2 : RawEntry) :
  Forall (fun k => e1 !! k = e2 !! k) entry_keys ->
  _normalize_entry e1 = _normalize_entry e2.
Proof.
  unfold entry_keys. rewrite !Forall_cons.
  intros (Ht & Hl & Hs & Hd & Hp & Hu & Hsrc & Hmc & Hmt & Hlk & Hsd & Hsub & _).
  assert (entry_lookup e1 "description" = entry_lookup e2 "description") as Hd'.
  { unfold entry_lookup, parser_lookup. destruct entry_kind; [exact Hd|].
    rewrite !decide_True by reflexivity. by rewrite Hs, Hsub, Hd. }
  assert (entry_lookup e1 "updated_parsed" = entry_lookup e2 "updated_parsed") as Hu'.
  { unfold entry_lookup, parser_lookup. destruct entry_kind; [exact Hu|].
    rewrite !(decide_False (P := "updated_parsed" = "description")) by done.
    rewrite !decide_True by reflexivity. by rewrite Hu, Hp. }
  unfold _normalize_entry, _extract_image, _derive_subtitle, entry_get,
    entry_get_default.
  rewrite Hd', Hu'.
  rewrite !(entry_lookup_plain _ "title"), !(entry_lookup_plain _ "link"),
    !(entry_lookup_plain _ "summary"), !(entry_lookup_plain _ "published_parsed"),
    !(entry_lookup_plain _ "source"), !(entry_lookup_plain _ "media_content"),
    !(entry_lookup_plain _ "media_thumbnail"), !(entry_lookup_plain _ "links"),
    !(entry_lookup_plain _ "summary_detail"), !(entry_lookup_plain _ "subtitle")
    by done.
  rewrite Ht, Hl, Hs, Hp, Hmc, Hmt, Hsd, Hsub, Hsrc, Hlk.
  reflexivity.
Qed.

(** X4: the summary of a returned entry is the text of the entry's
    summary when that is not empty, else the text of what the entry
    answers for [description], else the empty string.  A [dict] answers
    for [description] from the key itself; a parser-built entry answers
    from its stored summary, else from its stored subtitle, so that an
    entry with a subtitle and no summary key has the subtitle for its
    summary. *)
Theorem summary_fallback (e : RawEntry) (fe : FeedEntry) :
  _normalize_entry e = Ok fe ->
  (forall s, get e "summary" = VStr s -> s <> [] -> summary fe = get_text s)
  /\ (forall s, truthy (get e "summary") = false ->
        entry_get e "description" = VStr s -> s <> [] -> summary fe = get_text s)
  /\ (truthy (get e "summary") = false ->
      truthy (entry_get e "description") = false -> summary fe = [])
  /\ (entry_kind = PlainDict -> entry_get e "description" = get e "description")
  /\ (entry_kind = ParserDict ->
      (forall v, e !! "summary" = Some v -> entry_get e "description" = v)
      /\ (forall v, e !! "summary" = None -> e !! "subtitle" = Some v ->
            entry_get e "description" = v)
      /\ (e !! "summary" = None -> e !! "subtitle" = None ->
          entry_get e "description" = get e "description")).
Proof.
  intros Hn.
  destruct (normalize_entry_inv _ _ Hn) as (_ & _ & Hsum & _).
  unfold py_or in Hsum. split; [|split; [|split; [|split]]].
  - intros s Hs Hne. rewrite Hs in Hsum. destruct s as [|c r]; [done|].
    cbn in Hsum. by injection Hsum.
  - intros s Hno Hd Hne. rewrite Hno, Hd in Hsum. destruct s as [|c r]; [done|].
    cbn in Hsum. by injection Hsum.
  - intros Hno Hnd. rewrite Hno in Hsum. unfold _extract_plain_text in Hsum.
    rewrite Hnd in Hsum. cbn in Hsum. by injection Hsum.
  - intros Hk. rewrite entry_get_description. by rewrite Hk.
  - intros Hk. rewrite entry_get_description, Hk. split; [|split].
    + by intros v ->.
    + by intros v -> ->.
    + by intros -> ->.
Qed.

(** X5: a subtitle that is derived (the entry has none of its own) is
    trimmed: it neither starts nor ends with white space, also when it
    was cut and the truncation mark appended. *)
Theorem derived_subtitle_trimmed (e : RawEntry) (fe : FeedEntry) (s : pystr) :
  truthy (get e "subtitle") = false ->
  _normalize_entry e = Ok fe -> subtitle fe = Some s ->
  strip s = s
  /\ (forall c r, s = c :: r -> py_isspace c = false)
  /\ (forall a c, s = a ++ [c] -> py_isspace c = false).
Proof.
  intros Hno Hn Hs.
  destruct (normalize_entry_inv _ _ Hn) as (_ & _ & _ & _ & _ & Hsub & _).
  rewrite Hs in Hsub.
  destruct (derive_subtitle_derived_inv _ _ _ Hno Hsub) as [|[text Ht]]; [discriminate|].
  symmetry in Ht. pose proof (teaser_trimmed _ _ Ht) as Htrim.
  split; [exact Htrim|]. split.
  - intros c r ->. by apply (strip_head _ _ _ Htrim).
  - intros a c ->. by apply (strip_last _ _ _ Htrim).
Qed.

(** X6: for an entry with no subtitle of its own and no summary detail,
    the subtitle is cut from the very summary the entry returns; a
    summary that is one trimmed sentence of at most 160 characters is its
    own subtitle. *)
Theorem subtitle_from_summary (e : RawEntry) (fe : FeedEntry) :
  _normalize_entry e = Ok fe ->
  truthy (get e "subtitle") = false -> e !! "summary_detail" = None ->
  subtitle fe = teaser (summary fe)
  /\ (summary fe <> [] -> strip (summary fe) = summary fe ->
      (length (summary fe) <= 160)%nat ->
      (forall a d b, summary fe = a ++ dot :: d :: b -> py_isspace d = false) ->
      subtitle fe = Some (summary fe)).
Proof.
  intros Hn Hno Hdet.
  destruct (normalize_entry_inv _ _ Hn) as (_ & _ & _ & _ & _ & Hsub & _).
  rewrite derive_subtitle_derived in Hsub; [|done|by rewrite (get_absent _ _ Hdet)].
  injection Hsub as Hsub.
  assert (subtitle fe = teaser (summary fe)) as Hteaser.
  { rewrite <- Hsub. unfold derived_text. rewrite (get_absent _ _ Hdet).
    cbn [nonempty]. destruct (summary fe); [by rewrite teaser_nil | reflexivity]. }
  split; [exact Hteaser|].
  intros Hne Htrim Hlen Hone. rewrite Hteaser. unfold teaser.
  rewrite (first_sentence_whole _ Hone), Htrim.
  rewrite decide_False by lia. by rewrite decide_False.
Qed.

(** X7: the published date determines the six components it was built
    from: two parsed times with the same published text agree on year,
    month, day, hour, minute and second.  (The day of the week, the day
    of the year and the daylight flag are not read.) *)
Theorem published_determines_time (t1 t2 : struct_time) (s : pystr) :
  _format_datetime (VTime t1) = Ok (Some s) ->
  _format_datetime (VTime t2) = Ok (Some s) ->
  tm_year t1 = tm_year t2 /\ tm_mon t1 = tm_mon t2 /\ tm_mday t1 = tm_mday t2
  /\ tm_hour t1 = tm_hour t2 /\ tm_min t1 = tm_min t2 /\ tm_sec t1 = tm_sec t2.
Proof.
  intros H1 H2.
  apply format_datetime_Some in H1 as (? & [= <-] & R1 & ->).
  apply format_datetime_Some in H2 as (? & [= <-] & R2 & E).
  destruct (iso8601_spells t1 R1)
    as (yr & mo & dy & hr & mi & sc & Hs1 & Hy & Hl & _ & V1).
  destruct (iso8601_spells t2 R2)
    as (yr' & mo' & dy' & hr' & mi' & sc' & Hs2 & Hy' & Hl' & _ & V2).
  rewrite Hs1, Hs2 in E.
  inversion Hl as [|? ? Lmo Hl1]; subst. inversion Hl1 as [|? ? Ldy Hl2]; subst.
  inversion Hl2 as [|? ? Lhr Hl3]; subst. inversion Hl3 as [|? ? Lmi Hl4]; subst.
  inversion Hl4 as [|? ? Lsc _]; subst.
  inversion Hl' as [|? ? Lmo' Hl1']; subst. inversion Hl1' as [|? ? Ldy' Hl2']; subst.
  inversion Hl2' as [|? ? Lhr' Hl3']; subst. inversion Hl3' as [|? ? Lmi' Hl4']; subst.
  inversion Hl4' as [|? ? Lsc' _]; subst.
  apply app_inj_1 in E as [<- E]; [|congruence]. injection E as E.
  apply app_inj_1 in E as [<- E]; [|congruence]. injection E as E.
  apply app_inj_1 in E as [<- E]; [|congruence]. injection E as E.
  apply app_inj_1 in E as [<- E]; [|congruence]. injection E as E.
  apply app_inj_1 in E as [<- E]; [|congruence]. injection E as <-.
  destruct V1 as (<- & <- & <- & <- & <- & <-).
  destruct V2 as (<- & <- & <- & <- & <- & <-). done.
Qed.

(** X8: a URL among the media content, or else among the media
    thumbnails, ends the search for an image: the links and the markup of
    the entry are not read, whatever they hold, and the URL returned is
    never an empty one. *)
Theorem media_preempts (e : RawEntry) (u : PyVal) :
  first_media_url (get e "media_content") = Some u
  \/ first_media_url (get e "media_content") = None
     /\ first_media_url (get e "media_thumbnail") = Some u ->
  _extract_image e = Ok u /\ truthy u = true.
Proof.
  unfold _extract_image. entry_plain. rewrite !media_scan_first.
  intros [Hc | [Hc Ht]].
  - rewrite Hc. split; [reflexivity | by apply (first_media_url_truthy _ _ Hc)].
  - rewrite Hc, Ht. split; [reflexivity | by apply (first_media_url_truthy _ _ Ht)].
Qed.

(** X9: whatever the entry holds, an image that [_extract_image] returns
    is null or a value that counts as true: never the empty string. *)
Theorem image_null_or_truthy (e : RawEntry) (v : PyVal) :
  _extract_image e = Ok v -> v = VNone \/ truthy v = true.
Proof.
  unfold _extract_image. entry_plain. rewrite !media_scan_first.
  destruct (first_media_url (get e "media_content")) as [u|] eqn:Hc.
  { intros [= <-]. right. by apply (first_media_url_truthy _ _ Hc). }
  destruct (first_media_url (get e "media_thumbnail")) as [u|] eqn:Ht.
  { intros [= <-]. right. by apply (first_media_url_truthy _ _ Ht). }
  intros Hi. bind_inv Hi. bind_inv Hi. rename a0 into found.
  destruct found as [href|].
  { injection Hi as <-. right. by apply (links_loop_truthy _ _ Ha0). }
  bind_inv Hi. rename a0 into in_detail.
  destruct in_detail as [src|].
  { injection Hi as <-. right.
    destruct (get e "summary_detail") as [| | | | |d|]; try discriminate.
    destruct (truthy (get d "value")); [|discriminate].
    by apply (soup_img_truthy _ _ Ha1). }
  bind_inv Hi. rename a0 into in_summary.
  destruct in_summary as [src|]; injection Hi as <-; [right|by left].
  destruct (truthy (py_or (get e "summary") (entry_get e "description")));
    [|discriminate].
  by apply (soup_img_truthy _ _ Ha2).
Qed.

End EntryFacts.


(** ** Feeds *)

Section FeedFacts.
Context {HP : HtmlParser} {UP : UrlParser} {EK : EntryKind}.

Lemma normalize_all_raise pre entry post ex :
  Forall (fun e => is_ok (_normalize_entry e) = true) pre ->
  _normalize_entry entry = Raise ex ->
  normalize_all (pre ++ entry :: post) = Raise ex.
Proof.
  intros Hpre Hex. induction Hpre as [|e pre He _ IH]; cbn [app normalize_all].
  - by rewrite Hex.
  - destruct (_normalize_entry e); [|discriminate]. cbn [mbind Res_bind].
    by rewrite IH.
Qed.

Lemma normalize_all_take raw fes k :
  normalize_all raw = Ok fes -> normalize_all (take k raw) = Ok (take k fes).
Proof. rewrite !normalize_all_Forall2. apply Forall2_take. Qed.

Context {FP : FeedParser}.

(** X11: one entry that cannot be normalised fails the whole feed: when
    the malformed-feed check has passed and an entry among those kept
    raises, the entries before it being sound, [fetch_feed] raises that
    very exception and returns no partial result. *)
Theorem fetch_feed_entry_failure (feed_url : pystr) (limit : PyVal)
    (pre post : list RawEntry) (entry : RawEntry) (ex : PyExc) :
  bozo (parse (request_url feed_url)) = false
  \/ bozo_exception (parse (request_url feed_url)) = None ->
  kept_entries feed_url limit = pre ++ entry :: post ->
  Forall (fun e => is_ok (_normalize_entry e) = true) pre ->
  _normalize_entry entry = Raise ex ->
  fetch_feed feed_url limit = Raise ex.
Proof.
  intros Hpass Hkept Hpre Hex. rewrite (fetch_feed_passed _ _ Hpass), Hkept.
  by rewrite (normalize_all_raise _ _ _ _ Hpre Hex).
Qed.

(** X12: lowering the limit only shortens the list: when a call with
    limit [n] succeeds, the call with a positive limit [m <= n] succeeds
    too, with the same feed title and link and the first [min m 100] of
    the entries. *)
Theorem fetch_feed_lower_limit (feed_url : pystr) (n m : Z) (r : FeedResult) :
  0 < m <= n -> fetch_feed feed_url (VInt n) = Ok r ->
  fetch_feed feed_url (VInt m)
  = Ok {| feed_title := feed_title r; feed_link := feed_link r;
          result_entries := take (Z.to_nat (Z.min m 100)) (result_entries r) |}.
Proof.
  intros Hm Hr. pose proof (fetch_feed_Ok_passed _ _ _ Hr) as Hpass.
  rewrite (fetch_feed_passed _ _ Hpass) in Hr. rewrite (fetch_feed_passed _ _ Hpass).
  bind_inv Hr. injection Hr as <-. cbn [feed_title feed_link result_entries].
  apply (normalize_all_take _ _ (Z.to_nat (Z.min m 100))) in Ha.
  unfold kept_entries, effective_limit, as_int, MAX_ITEMS in *.
  assert ((n <=? 0) = false) as En by (apply Z.leb_gt; lia).
  assert ((m <=? 0) = false) as Em by (apply Z.leb_gt; lia).
  rewrite En in Ha. rewrite Em. rewrite take_take in Ha.
  replace (Z.to_nat (Z.min m 100) `min` Z.to_nat (Z.min n 100))%nat
    with (Z.to_nat (Z.min m 100)) in Ha by lia.
  by rewrite Ha.
Qed.

(** X13: the address of the feed.  The empty address stands for the
    default feed; white space around an address is not part of it; an
    address of white space alone is not replaced by the default: the
    parser is asked for the empty address. *)
Theorem fetch_feed_address (feed_url : pystr) (limit : PyVal) :
  fetch_feed [] limit = fetch_feed DEFAULT_FEED_URL limit
  /\ (strip feed_url <> [] -> fetch_feed feed_url limit = fetch_feed (strip feed_url) limit)
  /\ (feed_url <> [] -> strip feed_url = [] -> request_url feed_url = []).
Proof.
  split; [|split].
  - unfold fetch_feed.
    by replace (request_url []) with (request_url DEFAULT_FEED_URL) by reflexivity.
  - intros Hne. unfold fetch_feed.
    replace (request_url (strip feed_url)) with (request_url feed_url); [reflexivity|].
    unfold request_url. apply nonempty_true in Hne. rewrite Hne.
    destruct feed_url; [done|]. cbn [nonempty]. by rewrite strip_strip.
  - intros Hne Hs. unfold request_url. apply nonempty_true in Hne. by rewrite Hne.
Qed.

End FeedFacts.

(** ** The payload of a feed *)

Lemma asdict_dom fe : dom (asdict fe) = FeedEntry_fields.
Proof.
  unfold asdict, FeedEntry_fields. rewrite !dom_insert_L, dom_singleton_L. set_solver.
Qed.

Lemma asdict_lookup fe :
  asdict fe !! "title" = Some (VStr (title fe))
  /\ asdict fe !! "summary" = Some (VStr (summary fe))
  /\ asdict fe !! "link" = Some (VStr (link fe))
  /\ asdict fe !! "published" = Some (optional (published fe))
  /\ asdict fe !! "source" = Some (optional (source fe))
  /\ asdict fe !! "subtitle" = Some (optional (subtitle fe))
  /\ asdict fe !! "image" = Some (image fe).
Proof. repeat split. Qed.

Lemma asdict_inj fe1 fe2 : asdict fe1 = asdict fe2 -> fe1 = fe2.
Proof.
  intros Heq.
  destruct (asdict_lookup fe1) as (T1 & S1 & L1 & P1 & O1 & U1 & I1).
  destruct (asdict_lookup fe2) as (T2 & S2 & L2 & P2 & O2 & U2 & I2).
  rewrite Heq in T1, S1, L1, P1, O1, U1, I1.
  rewrite T2 in T1. rewrite S2 in S1. rewrite L2 in L1. rewrite P2 in P1.
  rewrite O2 in O1. rewrite U2 in U1. rewrite I2 in I1.
  injection T1 as T1. injection S1 as S1. injection L1 as L1. injection P1 as P1.
  injection O1 as O1. injection U1 as U1. injection I1 as I1.
  assert (forall a b, optional a = optional b -> a = b) as Hopt.
  { intros [a|] [b|] Hab; try discriminate; [by injection Hab as ->|done]. }
  apply FeedEntry_eq; auto.
Qed.

Lemma entries_inj l1 l2 :
  map (fun entry => VDict (asdict entry)) l1 = map (fun entry => VDict (asdict entry)) l2 ->
  l1 = l2.
Proof.
  apply list_map_injective. intros x y Hxy. by apply asdict_inj, VDict_inj.
Qed.

Lemma serialize_feed_lookup r c m :
  _serialize_feed r c m !! "feedTitle" = Some (feed_title r)
  /\ _serialize_feed r c m !! "feedLink" = Some (feed_link r)
  /\ _serialize_feed r c m !! "entries"
     = Some (VList (map (fun entry => VDict (asdict entry)) (result_entries r)))
  /\ _serialize_feed r c m !! "category" = Some (VStr c)
  /\ _serialize_feed r c m !! "categoryName" = Some (get_default m "name" (VStr []))
  /\ _serialize_feed r c m !! "categoryDescription"
     = Some (get_default m "description" (VStr [])).
Proof. repeat split. Qed.

(** X14: the payload loses nothing of the feed: two payloads are equal
    only when they were built from the same result, entry by entry and
    field by field, under the same category.  (The description of the
    category is read for its name and its description alone.) *)
Theorem serialize_feed_lossless (r1 r2 : FeedResult) (c1 c2 : pystr)
    (m1 m2 : gmap string PyVal) :
  _serialize_feed r1 c1 m1 = _serialize_feed r2 c2 m2 ->
  r1 = r2 /\ c1 = c2.
Proof.
  intros Heq.
  destruct (serialize_feed_lookup r1 c1 m1) as (T1 & L1 & E1 & C1 & _).
  destruct (serialize_feed_lookup r2 c2 m2) as (T2 & L2 & E2 & C2 & _).
  rewrite Heq in T1, L1, E1, C1.
  rewrite T2 in T1. rewrite L2 in L1. rewrite E2 in E1. rewrite C2 in C1.
  injection T1 as T1. injection L1 as L1. injection E1 as E1. injection C1 as C1.
  split; [|done]. apply FeedResult_eq; auto. by apply entries_inj.
Qed.

(** X15: the payload has six keys: the three of [to_dict], which the
    category leaves as they are, and the three of the category; a
    category without a name or a description gets the empty string. *)
Theorem serialize_feed_fields (r : FeedResult) (c : pystr) (m : gmap string PyVal) :
  dom (_serialize_feed r c m) = payload_keys
  /\ (forall k, k ∈ dom (to_dict r) -> _serialize_feed r c m !! k = to_dict r !! k)
  /\ _serialize_feed r c m !! "category" = Some (VStr c)
  /\ (m !! "name" = None -> _serialize_feed r c m !! "categoryName" = Some (VStr []))
  /\ (m !! "description" = None ->
      _serialize_feed r c m !! "categoryDescription" = Some (VStr [])).
Proof.
  destruct (serialize_feed_lookup r c m) as (_ & _ & _ & Hc & Hn & Hd).
  split; [|split; [|split; [exact Hc|split]]].
  - unfold _serialize_feed, to_dict, payload_keys.
    rewrite !dom_insert_L, dom_singleton_L. set_solver.
  - intros k. unfold to_dict at 1. rewrite !dom_insert_L, dom_singleton_L.
    rewrite !elem_of_union, !elem_of_singleton.
    intros [->|[->| ->]]; reflexivity.
  - intros Hnone. by rewrite Hn, (get_default_absent _ _ _ Hnone).
  - intros Hnone. by rewrite Hd, (get_default_absent _ _ _ Hnone).
Qed.

Section Payload.
Context {HP : HtmlParser} {UP : UrlParser} {EK : EntryKind} {FP : FeedParser}.

(** X16: what [/api/feed] answers with when [fetch_feed] succeeds: the
    payload lists at most 100 entries, one for each entry kept, in the
    order of the feed, and each is a mapping with the seven keys of
    [FeedEntry], null fields included. *)
Theorem feed_payload_entries (feed_url : pystr) (limit : PyVal) (r : FeedResult)
    (category : pystr) (meta : gmap string PyVal) :
  fetch_feed feed_url limit = Ok r ->
  exists items,
    _serialize_feed r category meta !! "entries" = Some (VList items)
    /\ (length items <= 100)%nat
    /\ Forall2 (fun raw item =>
                  exists fe, _normalize_entry raw = Ok fe /\ item = VDict (asdict fe)
                             /\ dom (asdict fe) = FeedEntry_fields)
         (kept_entries feed_url limit) items.
Proof.
  intros Hr. eexists. split; [apply serialize_feed_lookup|].
  pose proof (fetch_feed_Ok_passed _ _ _ Hr) as Hpass.
  rewrite (fetch_feed_passed _ _ Hpass) in Hr. bind_inv Hr. injection Hr as <-.
  cbn [result_entries]. apply normalize_all_Forall2 in Ha.
  split.
  - rewrite length_map, <- (Forall2_length _ _ _ Ha). unfold kept_entries.
    rewrite length_take. pose proof (effective_limit_range limit). lia.
  - induction Ha as [|raw fe raws fes Hfe _ IH]; cbn [map]; constructor; [|exact IH].
    exists fe. split; [exact Hfe|]. split; [reflexivity | apply asdict_dom].
Qed.

End Payload.

(** ** The prompt *)

Section PromptFacts.
Context {F : Formatter}.

Lemma story_asdict fe : story (VDict (asdict fe)) = Some (entry_line fe).
Proof.
  destruct (asdict_lookup fe) as (T & S & _ & P & O & _).
  unfold story.
  rewrite (get_default_present _ _ _ _ T), (get_default_present _ _ _ _ S),
    (get_default_present _ _ _ _ O), (get_present _ _ _ P).
  cbn [stripped strip_method mbind option_bind]. unfold entry_line.
  destruct (source fe), (published fe); reflexivity.
Qed.

Lemma mapM_story_asdict l :
  mapM story (map (fun entry => VDict (asdict entry)) l) = Some (map entry_line l).
Proof.
  apply mapM_Some. induction l as [|fe l IH]; cbn [map]; constructor; [|exact IH].
  apply story_asdict.
Qed.

Lemma py_or_list l : py_or (VList l) (VList []) = VList l.
Proof. by destruct l. Qed.

(** X17: the prompt of a payload the server built itself is always
    there: the head, then one line for each of the first fifteen entries.
    A line gives the title and the summary trimmed, and the source and
    the published date as they are; a null one is printed as [None],
    since the payload carries the key, and the default for a missing
    source is not used. *)
Theorem build_prompt_serialized (r : FeedResult) (c : pystr) (m : gmap string PyVal) :
  _build_prompt (_serialize_feed r c m)
  = Some (PROMPT_HEAD
          ++ str_join [newline] (map entry_line (take 15 (result_entries r)))).
Proof.
  destruct (serialize_feed_lookup r c m) as (_ & _ & He & _).
  unfold _build_prompt. rewrite (get_present _ _ _ He), py_or_list.
  rewrite slice_to_take by lia. change (Z.to_nat 15) with 15%nat.
  rewrite firstn_map, mapM_story_asdict. reflexivity.
Qed.

(** X18: what the prompt reads of a feed.  Without entries (the key
    missing, null or empty) the prompt is the head alone; of a list of
    entries the first fifteen are read and nothing else of the feed; any
    other value under [entries] fails the prompt. *)
Theorem build_prompt_entries (feed : gmap string PyVal) :
  (truthy (get feed "entries") = false -> _build_prompt feed = Some PROMPT_HEAD)
  /\ (forall entries, get feed "entries" = VList entries ->
        _build_prompt feed = _build_prompt {[ "entries" := VList (take 15 entries) ]})
  /\ (truthy (get feed "entries") = true ->
      (forall entries, get feed "entries" <> VList entries) ->
      _build_prompt feed = None).
Proof.
  split; [|split].
  - intros Hno. unfold _build_prompt, py_or. rewrite Hno.
    rewrite <- (app_nil_r PROMPT_HEAD) at 1. reflexivity.
  - intros entries He. unfold _build_prompt. rewrite He.
    assert (get {[ "entries" := VList (take 15 entries) ]} "entries"
            = VList (take 15 entries)) as -> by reflexivity.
    rewrite !py_or_list, !slice_to_take by lia. change (Z.to_nat 15) with 15%nat.
    by rewrite take_idemp.
  - intros Hyes Hnot. unfold _build_prompt, py_or. rewrite Hyes.
    destruct (get feed "entries") as [| | | |l| |]; try reflexivity.
    by destruct (Hnot l).
Qed.

(** X19: a story among the first fifteen whose title or summary is there
    and is no text (null, say) fails the prompt: the empty default
    stands in for a missing key only. *)
Theorem build_prompt_null_field (feed : gmap string PyVal) (entries : list PyVal)
    (i : nat) (d : gmap string PyVal) (k : string) (v : PyVal) :
  get feed "entries" = VList entries ->
  entries !! i = Some (VDict d) -> (i < 15)%nat ->
  k = "title" \/ k = "summary" ->
  d !! k = Some v -> (forall s, v <> VStr s) ->
  _build_prompt feed = None.
Proof.
  intros He Hi Hlt Hk Hv Hnot. unfold _build_prompt. rewrite He, py_or_list.
  rewrite slice_to_take by lia. change (Z.to_nat 15) with 15%nat.
  assert (mapM story (take 15 entries) = None) as ->; [|reflexivity].
  apply mapM_None. apply Exists_exists. exists (VDict d). split.
  - apply list_elem_of_lookup. exists i. by rewrite lookup_take_lt.
  - assert (stripped v = None) as Hs.
    { destruct v; try reflexivity. by destruct (Hnot s). }
    cbn [story].
    destruct Hk as [-> | ->]; rewrite (get_default_present _ _ _ _ Hv), Hs.
    + reflexivity.
    + destruct (stripped (get_default d "title" (VStr []))); reflexivity.
Qed.

End PromptFacts.

(** * Worked examples

    The claims on the sample documents, run with the reference
    libraries. *)

Section Worked.
Import Samples.
#[local] Existing Instance Reference.html_parser.
#[local] Existing Instance Reference.url_parser.
#[local] Existing Instance Reference.dict_entries.

(** The first test of the test-suite: the story is normalised as the
    test expects, field by field. *)
Example breaking_story_normalized :
  _normalize_entry breaking_story
  = Ok {| title := py "Breaking Story";
          summary := py "Summary content .";
          link := py "https://example.com/story";
          published := Some (py "2024-07-04T10:30:00");
          source := Some (py "Example Source");
          subtitle := Some (py "Summary content .");
          image := VStr (py "https://example.com/image.jpg") |}.
Proof. vm_compute. reflexivity. Qed.

Example empty_mapping_normalized : _normalize_entry ∅ = Ok empty_entry.
Proof. vm_compute. reflexivity. Qed.


(** C1 at its failing inputs: the claim has every mapping normalised
    without an exception.  A link with an unclosed square bracket is
    refused by the URL parser, and a title that is a nested mapping has no
    [strip]; either exception leaves the normaliser, and no [FeedEntry] is
    returned. *)
Lemma normalize_entry_raises :
  _normalize_entry mapping_title = Raise AttributeError
  /\ _normalize_entry broken_link = Raise (ValueError (py "Invalid IPv6 URL")).
Proof. split; vm_compute; reflexivity. Qed.

Lemma subtitle_length_witness :
  truthy (get breaking_story "subtitle") = false
  /\ (length (py "Summary content .") <= 160)%nat.
Proof.
  assert (truthy (get breaking_story "subtitle") = false) as Hno
    by (vm_compute; reflexivity).
  split; [exact Hno|].
  apply (subtitle_length breaking_story _ _ Hno breaking_story_normalized).
  reflexivity.
Defined.

(** C2 as stated fails: a subtitle of the entry's own comes back whole,
    here 161 characters long. *)
Lemma subtitle_over_limit :
  exists fe s, _normalize_entry long_subtitle = Ok fe
    /\ subtitle fe = Some s /\ length s = 161%nat.
Proof.
  eexists. eexists. split; [vm_compute; reflexivity|].
  split; reflexivity.
Qed.



(** A long summary is cut to 157 characters and the mark: 160 in all. *)
Example long_summary_cut :
  _derive_subtitle ∅ (replicate 200 97%N)
  = Ok (Some (replicate 157 97%N ++ TRUNCATION_MARK)).
Proof. vm_compute. reflexivity. Qed.


Lemma published_iso_witness :
  dates_ok breaking_story = true
  /\ published_rule breaking_story = Some (py "2024-07-04T10:30:00")
  /\ _format_datetime (py_or (get breaking_story "published_parsed")
                             (get breaking_story "updated_parsed"))
     = Ok (Some (py "2024-07-04T10:30:00")).
Proof.
  assert (dates_ok breaking_story = true) as Hd by (vm_compute; reflexivity).
  assert (published_rule breaking_story = Some (py "2024-07-04T10:30:00")) as Hp
    by (vm_compute; reflexivity).
  split; [exact Hd|]. split; [exact Hp|].
  destruct (published_iso breaking_story Hd) as (Hf & _).
  rewrite Hf, Hp. reflexivity.
Defined.

(** A second of 60, which a [struct_time] may carry, is out of range for
    [datetime]: the date is null. *)
Example leap_second_null :
  _format_datetime (VTime {| tm_year := 2016; tm_mon := 12; tm_mday := 31;
                             tm_hour := 23; tm_min := 59; tm_sec := 60;
                             tm_wday := 5; tm_yday := 366; tm_isdst := 0 |})
  = Ok None.
Proof. vm_compute. reflexivity. Qed.

(** C7 at its failing inputs: the claim has a failed conversion give
    null, with no exception.  A year that does not fit a C integer makes
    [datetime] raise [OverflowError], which is not among the exceptions
    [_format_datetime] catches, and a date left as text has no [tm_year];
    either exception leaves the normaliser. *)
Lemma far_future_raises :
  _format_datetime (get far_future "published_parsed") = Raise OverflowError
  /\ _normalize_entry far_future = Raise OverflowError
  /\ _normalize_entry text_date = Raise AttributeError.
Proof. repeat split; vm_compute; reflexivity. Qed.

(** C6 at its failing input: the claim has an entry without a match get
    a null image, not an error.  A link whose type is stored as null
    matches none of the five rules, and the search for an image link asks
    the null for [startswith]: [AttributeError] leaves the normaliser. *)
Lemma null_link_type_raises :
  Forall (fun c => c = None) (image_candidates null_type_link)
  /\ _extract_image null_type_link = Raise AttributeError
  /\ _normalize_entry null_type_link = Raise AttributeError.
Proof.
  split; [|split; vm_compute; reflexivity].
  vm_compute. repeat constructor.
Qed.

(** The network location keeps the port of the link. *)
Example port_kept_in_source :
  source <$> (match _normalize_entry {[ "link" := VStr (py "https://news.example.com:8080/x") ]}
              with Ok fe => Some fe | Raise _ => None end)
  = Some (Some (py "news.example.com:8080")).
Proof. vm_compute. reflexivity. Qed.

(** C8 on its example: without a source mapping the host of the link is
    the source. *)
Example news_link_source :
  source <$> (match _normalize_entry news_link with Ok fe => Some fe | Raise _ => None end)
  = Some (Some (py "news.example.com")).
Proof. vm_compute. reflexivity. Qed.

Lemma source_attribution_witness :
  exists fe, _normalize_entry news_link = Ok fe
    /\ source fe = Some (py "news.example.com").
Proof.
  assert (exists fe, _normalize_entry news_link = Ok fe) as [fe Hfe]
    by (eexists; vm_compute; reflexivity).
  exists fe. split; [exact Hfe|].
  destruct (source_attribution news_link fe) as (_ & Hhost & _);
    [reflexivity | reflexivity | exact Hfe |].
  apply Hhost; [reflexivity | discriminate | vm_compute; reflexivity | discriminate].
Defined.

(** C8 at the failing input: the link is there and does not parse; the
    normaliser raises where the claim says the source is null. *)
Lemma source_broken_link_raises :
  source_title broken_link = None
  /\ urlparse_netloc (link_text broken_link) = Raise (ValueError (py "Invalid IPv6 URL"))
  /\ _normalize_entry broken_link = Raise (ValueError (py "Invalid IPv6 URL")).
Proof. repeat split; vm_compute; reflexivity. Qed.

(** The test-suite's feed, asked for one entry. *)
Example sample_feed_limit_1 :
  result_entries <$>
    (match fetch_feed (FP := Reference.canned sample_feed) feed_address (VInt 1) with
     | Ok r => Some r | Raise _ => None end)
  = (fun fe => [fe]) <$>
    (match _normalize_entry breaking_story with Ok fe => Some fe | Raise _ => None end).
Proof. vm_compute. reflexivity. Qed.

Lemma fetch_feed_limit_witness :
  exists r, fetch_feed (FP := Reference.canned sample_feed) feed_address (VInt 1) = Ok r
    /\ length (result_entries r) = 1%nat.
Proof.
  destruct (fetch_feed_limit (FP := Reference.canned sample_feed) feed_address (VInt 1))
    as (k & _ & _ & _ & Hk & Hupper & _).
  specialize (Hk 1 eq_refl ltac:(lia)).
  assert (k = 1%nat) as -> by lia.
  assert (exists r, fetch_feed (FP := Reference.canned sample_feed) feed_address (VInt 1)
                    = Ok r) as [r Hr]
    by (eexists; vm_compute; reflexivity).
  exists r. split; [exact Hr|].
  destruct (Hupper r Hr) as [_ Hall].
  apply Forall2_length in Hall. rewrite <- Hall. vm_compute. reflexivity.
Defined.

(** C3 at its failing inputs: the claim has a limit that is no usable
    number stand for the cap of 100, and any other limit for the smaller
    of itself and 100.  A NaN and plus infinity are floats that are not
    at most zero, and have no whole part: [fetch_feed] raises
    [ValueError] and [OverflowError] on the feed it returns in full when
    the limit is left out. *)
Lemma unbounded_limit_raises :
  fetch_feed (FP := Reference.canned sample_feed) feed_address (LimitFloat S754_nan)
  = Raise (ValueError (py "cannot convert float NaN to integer"))
  /\ fetch_feed (FP := Reference.canned sample_feed) feed_address
       (LimitFloat (S754_infinity false))
     = Raise OverflowError
  /\ is_ok (fetch_feed (FP := Reference.canned sample_feed) feed_address VNone) = true.
Proof. repeat split; vm_compute; reflexivity. Qed.

(** A limit of one half keeps no entry; one of a hundred and a half
    keeps a hundred. *)
Example half_limit_keeps_nothing :
  limit_count (LimitFloat one_half) = Ok 0
  /\ limit_count (LimitFloat hundred_and_a_half) = Ok 100.
Proof. split; reflexivity. Qed.

Lemma fetch_feed_float_limit_witness :
  exists r,
    fetch_feed (FP := Reference.canned sample_feed) feed_address (LimitFloat one_half)
    = Ok r
    /\ result_entries r = [].
Proof.
  destruct (fetch_feed_float_limit (FP := Reference.canned sample_feed)
              feed_address one_half) as (_ & Hfinite & _); [by left|].
  destruct (Hfinite 1%positive (-1) eq_refl) as [_ Hzero].
  apply Hzero. reflexivity.
Defined.

Lemma fetch_feed_malformed_witness :
  exists msg,
    fetch_feed (FP := Reference.canned boom_feed) feed_address VNone
    = Raise (ValueError msg)
    /\ contains msg (py "boom").
Proof.
  apply (fetch_feed_malformed (FP := Reference.canned boom_feed) feed_address VNone
           (py "boom")); reflexivity.
Defined.

Lemma fetch_feed_defaults_witness :
  exists r, fetch_feed (FP := Reference.canned nameless_feed) feed_address VNone = Ok r
    /\ feed_title r = VStr (py "RSS Feed") /\ feed_link r = VStr feed_address.
Proof.
  eexists. split; [vm_compute; reflexivity|].
  assert (fetch_feed (FP := Reference.canned nameless_feed) feed_address VNone
          = Ok {| feed_title := VStr (py "RSS Feed"); feed_link := VStr feed_address;
                  result_entries :=
                    omap (fun e => match _normalize_entry e with
                                   | Ok fe => Some fe | Raise _ => None end)
                         [ignored_story] |}) as Hr by (vm_compute; reflexivity).
  destruct (fetch_feed_defaults (FP := Reference.canned nameless_feed) _ _ _ Hr)
    as (Htitle & Hlink).
  split; [by apply Htitle|].
  destruct (Hlink eq_refl) as (_ & Hsame). apply Hsame; [discriminate|].
  vm_compute. reflexivity.
Defined.

Lemma fetch_feed_flag_without_cause_witness :
  exists r, fetch_feed (FP := Reference.canned flagged_feed) feed_address VNone = Ok r
    /\ feed_title r = VStr (py "Sample Feed") /\ length (result_entries r) = 1%nat.
Proof.
  destruct (fetch_feed_flag_without_cause (FP := Reference.canned flagged_feed)
              feed_address VNone
              (omap (fun e => match _normalize_entry e with
                              | Ok fe => Some fe | Raise _ => None end)
                    [ignored_story]))
    as (Hgoes & _); [vm_compute; reflexivity|].
  eexists. split; [apply Hgoes; reflexivity|].
  split; vm_compute; reflexivity.
Defined.

(** ** The further properties on the sample documents *)

Lemma normalize_entry_invariants_witness :
  strip (py "Breaking Story") = py "Breaking Story"
  /\ Some (py "Example Source") <> Some [].
Proof.
  destruct (normalize_entry_invariants breaking_story _ breaking_story_normalized)
    as (Ht & _ & Hs & _).
  split; [exact Ht | exact Hs].
Defined.

Lemma normalize_entry_reads_witness :
  signed_story <> breaking_story
  /\ _normalize_entry signed_story = _normalize_entry breaking_story.
Proof.
  split.
  - intros Heq. apply (f_equal (fun e : RawEntry => e !! "author")) in Heq.
    discriminate Heq.
  - apply normalize_entry_reads. repeat constructor.
Defined.

(** The podcast item as the parser builds it: the subtitle is its
    summary. *)
Example podcast_item_parsed :
  _normalize_entry (EK := Reference.parser_entries) podcast_item
  = Ok {| title := py "Episode 1"; summary := py "Only a teaser"; link := [];
          published := None; source := None;
          subtitle := Some (py "Only a teaser"); image := VNone |}.
Proof. vm_compute. reflexivity. Qed.

(** The same item as a [dict]: no summary. *)
Example podcast_item_dict :
  summary <$> (match _normalize_entry podcast_item with
               | Ok fe => Some fe | Raise _ => None end)
  = Some [].
Proof. vm_compute. reflexivity. Qed.

Lemma summary_fallback_witness :
  entry_get (EK := Reference.parser_entries) podcast_item "description"
  = VStr (py "Only a teaser")
  /\ py "Only a teaser" = get_text (py "Only a teaser").
Proof.
  destruct (summary_fallback (EK := Reference.parser_entries) podcast_item _
              podcast_item_parsed) as (_ & Hdescription & _ & _ & Hparser).
  destruct (Hparser eq_refl) as (_ & Hsubtitle & _).
  assert (entry_get (EK := Reference.parser_entries) podcast_item "description"
          = VStr (py "Only a teaser")) as Hd by (apply Hsubtitle; reflexivity).
  split; [exact Hd|].
  apply (Hdescription (py "Only a teaser")); [reflexivity | exact Hd | discriminate].
Defined.

Lemma derived_subtitle_trimmed_witness :
  truthy (get breaking_story "subtitle") = false
  /\ strip (py "Summary content .") = py "Summary content .".
Proof.
  assert (truthy (get breaking_story "subtitle") = false) as Hno
    by (vm_compute; reflexivity).
  split; [exact Hno|].
  destruct (derived_subtitle_trimmed breaking_story _ _ Hno breaking_story_normalized
              eq_refl) as [Ht _].
  exact Ht.
Defined.

(** An own subtitle of markup alone comes back as the empty string, not
    as null, and is not trimmed into one. *)
Example markup_only_subtitle :
  _derive_subtitle {[ "subtitle" := VStr (py "<p></p>") ]} [] = Ok (Some []).
Proof. vm_compute. reflexivity. Qed.

Lemma subtitle_from_summary_witness :
  Some (py "Summary content .") = teaser (py "Summary content .").
Proof.
  destruct (subtitle_from_summary breaking_story _ breaking_story_normalized) as [Hs _];
    [vm_compute; reflexivity | reflexivity | exact Hs].
Defined.

Lemma published_determines_time_witness :
  tm_hour (july_4th 10 30) = tm_hour (july_4th_bare 10 30)
  /\ tm_wday (july_4th 10 30) <> tm_wday (july_4th_bare 10 30).
Proof.
  destruct (published_determines_time (july_4th 10 30) (july_4th_bare 10 30)
              (py "2024-07-04T10:30:00")) as (_ & _ & _ & Hh & _);
    [vm_compute; reflexivity | vm_compute; reflexivity |].
  split; [exact Hh | discriminate].
Defined.

Lemma media_preempts_witness :
  _extract_image attached_with_odd_links = Ok (VStr (py "https://cdn.example.com/a.jpg")).
Proof.
  destruct (media_preempts attached_with_odd_links
              (VStr (py "https://cdn.example.com/a.jpg"))) as [Hu _];
    [left; vm_compute; reflexivity | exact Hu].
Defined.

(** Without the attachment the same links end the search with an
    exception. *)
Example odd_links_raise : _extract_image {[ "links" := VInt 5 ]} = Raise TypeError.
Proof. vm_compute. reflexivity. Qed.

Lemma image_null_or_truthy_witness :
  VStr (py "https://example.com/image.jpg") = VNone
  \/ truthy (VStr (py "https://example.com/image.jpg")) = true.
Proof.
  apply (image_null_or_truthy breaking_story). vm_compute. reflexivity.
Defined.

Lemma fetch_feed_entry_failure_witness :
  fetch_feed (FP := Reference.canned spoiled_feed) feed_address VNone
  = Raise (ValueError (py "Invalid IPv6 URL")).
Proof.
  apply (fetch_feed_entry_failure (FP := Reference.canned spoiled_feed)
           feed_address VNone [breaking_story] [ignored_story] broken_link).
  - by left.
  - reflexivity.
  - constructor; [vm_compute; reflexivity | constructor].
  - vm_compute. reflexivity.
Defined.

(** Asked for one entry, the same feed is returned: the refused link
    lies beyond the limit. *)
Example spoiled_feed_limit_1 :
  is_ok (fetch_feed (FP := Reference.canned spoiled_feed) feed_address (VInt 1)) = true.
Proof. vm_compute. reflexivity. Qed.

Lemma fetch_feed_lower_limit_witness :
  exists r,
    fetch_feed (FP := Reference.canned sample_feed) feed_address (VInt 2) = Ok r
    /\ fetch_feed (FP := Reference.canned sample_feed) feed_address (VInt 1)
       = Ok {| feed_title := feed_title r; feed_link := feed_link r;
               result_entries := take 1 (result_entries r) |}.
Proof.
  assert (exists r, fetch_feed (FP := Reference.canned sample_feed) feed_address (VInt 2)
                    = Ok r) as [r Hr]
    by (eexists; vm_compute; reflexivity).
  exists r. split; [exact Hr|].
  exact (fetch_feed_lower_limit (FP := Reference.canned sample_feed)
           feed_address 2 1 r ltac:(lia) Hr).
Defined.

Lemma serialize_feed_lossless_witness :
  _serialize_feed sample_result (py "top-stories") front_page
  = _serialize_feed sample_result (py "top-stories") front_page_with_url
  /\ sample_result = sample_result /\ py "top-stories" = py "top-stories".
Proof.
  assert (_serialize_feed sample_result (py "top-stories") front_page
          = _serialize_feed sample_result (py "top-stories") front_page_with_url)
    as Heq by reflexivity.
  split; [exact Heq|]. exact (serialize_feed_lossless _ _ _ _ _ _ Heq).
Defined.

Lemma feed_payload_entries_witness :
  exists r items,
    fetch_feed (FP := Reference.canned sample_feed) feed_address (VInt 1) = Ok r
    /\ _serialize_feed r (py "top-stories") front_page !! "entries" = Some (VList items)
    /\ (length items <= 100)%nat.
Proof.
  assert (exists r, fetch_feed (FP := Reference.canned sample_feed) feed_address (VInt 1)
                    = Ok r) as [r Hr]
    by (eexists; vm_compute; reflexivity).
  destruct (feed_payload_entries (FP := Reference.canned sample_feed)
              feed_address (VInt 1) r (py "top-stories") front_page Hr)
    as (items & He & Hlen & _).
  exists r, items. split; [exact Hr|]. split; [exact He | exact Hlen].
Defined.

#[local] Existing Instance Reference.formatter.

(** The prompt of a payload with one entry that has nothing in it. *)
Example empty_entry_prompt :
  _build_prompt (_serialize_feed sample_result (py "top-stories") front_page)
  = Some (PROMPT_HEAD ++ story_line [] (py "None") (py "None") []).
Proof. vm_compute. reflexivity. Qed.

(** A story with no key at all gets the defaults. *)
Example bare_story_line :
  story (VDict ∅) = Some (story_line [] (py "Unknown source") (py "None") []).
Proof. vm_compute. reflexivity. Qed.

Lemma build_prompt_null_field_witness :
  _build_prompt {[ "entries" := VList [VDict null_title_story] ]} = None.
Proof.
  apply (build_prompt_null_field _ [VDict null_title_story] 0 null_title_story
           "title" VNone);
    [reflexivity | reflexivity | lia | by left | reflexivity | by intros s].
Defined.

End Worked.
